(** * MMTQueue: nightly ephemeris and observability curves of the MMT

    A shallow embedding of [MMTEphem.py] (the short module at the top of the
    repository) and of [original_version/MMTEphem.py] (the module with the
    airmass and parallactic-angle curves), and the properties of the two
    that the specification states.

    Conventions of the embedding.
    - A [datetime] is an integer number of microseconds, the resolution of
      Python's [datetime]; a [timedelta] is a difference of two of them.
      The range limit of [datetime] (years 1 to 9999) is not modelled.
    - Python floats are modelled by real numbers.
    - PyEphem (the module [ephem]) is not part of the repository.  Its
      rise/set searches and its [compute] are parameters of the
      development; they read the observer they are given. *)

From Stdlib Require Import ZArith List String Ascii Bool Lia.
From Stdlib Require Import Reals Lra.
From Equations Require Import Equations.
Import ListNotations.

Local Open Scope string_scope.
Local Open Scope list_scope.
Local Open Scope Z_scope.

(** ** Instants and the five-minute step *)

Abbreviation datetime := Z (only parsing).

(** [datetime.timedelta(minutes=n)], in microseconds. *)
Definition timedelta_minutes (n : Z) : Z := n * 60 * 1000000.

Definition day : Z := 24 * 60 * 60 * 1000000.

(** ** The time grid of [airmassCurve] and [parAngleCurve]

    Both functions build the grid with the same statements:
<<
    timedelta = datetime.timedelta(minutes=5)
    timeArray = [startTime]
    while (timeArray[-1] < endTime):
        timeArray.append(timeArray[-1]+timedelta)
>>
    [timeArray[-1]] is [last timeArray]; the list is never empty, so the
    default of [last] is never used. *)

Definition timedelta : Z := timedelta_minutes 5.

(** The loop with a step budget: [None] when the budget runs out before the
    guard fails. *)
Fixpoint grid_run (fuel : nat) (endTime : datetime) (timeArray : list datetime)
  : option (list datetime) :=
  match fuel with
  | O => None
  | S fuel' =>
      if last timeArray 0 <? endTime
      then grid_run fuel' endTime (timeArray ++ [last timeArray 0 + timedelta])
      else Some timeArray
  end.

(** The loop as a total function; the distance from the last instant to
    [endTime] decreases at each turn because the step is positive. *)
Equations? grid_loop (endTime : datetime) (timeArray : list datetime)
  : list datetime by wf (Z.to_nat (endTime - last timeArray 0)) lt :=
  grid_loop endTime timeArray with Z_lt_dec (last timeArray 0) endTime := {
    | left _ => grid_loop endTime (timeArray ++ [last timeArray 0 + timedelta]);
    | right _ => timeArray }.
Proof.
  rewrite last_last. unfold timedelta, timedelta_minutes. lia.
Qed.

Definition timeGrid (startTime endTime : datetime) : list datetime :=
  grid_loop endTime [startTime].

(** ** Strings: [str.split()[0]]

    [s.split()] cuts [s] at runs of white space and drops empty pieces;
    [s.split()[0]] is the first piece and raises [IndexError] ([None]) when
    there is none.  Strings are taken to be ASCII; the white space of
    [str.split] below 128 is 9 to 13 and 28 to 32. *)

Definition is_space (c : ascii) : bool :=
  let n := nat_of_ascii c in
  ((9 <=? n)%nat && (n <=? 13)%nat) || ((28 <=? n)%nat && (n <=? 32)%nat).

Fixpoint lstrip (s : string) : string :=
  match s with
  | EmptyString => EmptyString
  | String c rest => if is_space c then lstrip rest else s
  end.

Fixpoint take_word (s : string) : string :=
  match s with
  | EmptyString => EmptyString
  | String c rest =>
      if is_space c then EmptyString else String c (take_word rest)
  end.

Definition split_first (s : string) : option string :=
  match lstrip s with
  | EmptyString => None
  | w => Some (take_word w)
  end.

(** ** The PyEphem observer

    A value assigned to [Observer.date] is a string that PyEphem parses or
    an instant ([datetime], [ephem.Date]). *)

Inductive pydate : Type :=
| DateStr (s : string)
| DateTime (t : datetime).

Inductive Body : Type := Sun | Moon.

Inductive Search : Type := Rising | Setting.

(** The fields of [ephem.Observer] that the repository writes.  Angles are
    kept as the strings assigned to them. *)
Record Observer : Type := mkObserver {
  pressure : Z;
  horizon : string;
  lat : string;
  lon : string;
  elevation : Z;
  date : pydate
}.

Definition set_pressure (o : Observer) (p : Z) : Observer :=
  mkObserver p (horizon o) (lat o) (lon o) (elevation o) (date o).

Definition set_horizon (o : Observer) (h : string) : Observer :=
  mkObserver (pressure o) h (lat o) (lon o) (elevation o) (date o).

Definition set_lat (o : Observer) (l : string) : Observer :=
  mkObserver (pressure o) (horizon o) l (lon o) (elevation o) (date o).

Definition set_lon (o : Observer) (l : string) : Observer :=
  mkObserver (pressure o) (horizon o) (lat o) l (elevation o) (date o).

Definition set_elevation (o : Observer) (e : Z) : Observer :=
  mkObserver (pressure o) (horizon o) (lat o) (lon o) e (date o).

Definition set_date (o : Observer) (d : pydate) : Observer :=
  mkObserver (pressure o) (horizon o) (lat o) (lon o) (elevation o) d.

(** [ephem.Observer()]: sea level at latitude and longitude zero, pressure
    1010 mbar, horizon zero, and the date of its creation. *)
Definition Observer_new (now : datetime) : Observer :=
  mkObserver 1010 "0:00:00.0" "0:00:00.0" "0:00:00.0" 0 (DateTime now).

(** One rise or set search, with the observer as it is when the search is
    made. *)
Record Query : Type := mkQuery {
  q_search : Search;
  q_body : Body;
  q_observer : Observer
}.

(** *** Statements on one observer handle

    The constructors of both modules work on one local observer [mmt]: they
    assign to its fields and ask it for risings and settings.  A [Session]
    is that handle together with the searches made so far, oldest first. *)

Record Session : Type := mkSession {
  observer : Observer;
  queries : list Query
}.

Definition M (A : Type) : Type := Session -> A * Session.

Definition ret {A} (a : A) : M A := fun s => (a, s).

Definition bind {A B} (m : M A) (k : A -> M B) : M B :=
  fun s => let (a, s') := m s in k a s'.

Declare Scope session_scope.
Delimit Scope session_scope with session.
Notation "x <- m ;; k" := (bind m (fun x => k))
  (at level 61, m at next level, right associativity) : session_scope.
Notation "m ;; k" := (bind m (fun _ => k))
  (at level 61, right associativity) : session_scope.

Definition assign_horizon (h : string) : M unit :=
  fun s => (tt, mkSession (set_horizon (observer s) h) (queries s)).

Definition assign_date (d : pydate) : M unit :=
  fun s => (tt, mkSession (set_date (observer s) d) (queries s)).

Definition the_observer : M Observer := fun s => (observer s, s).

Section Searches.

(** [Observer.next_setting(body)] and [Observer.next_rising(body)]. *)
Variables next_setting next_rising : Observer -> Body -> datetime.

Definition search (k : Search) (o : Observer) (b : Body) : datetime :=
  match k with
  | Setting => next_setting o b
  | Rising => next_rising o b
  end.

Definition ask (k : Search) (b : Body) : M datetime :=
  fun s => (search k (observer s) b,
            mkSession (observer s) (queries s ++ [mkQuery k b (observer s)])).

End Searches.

(** ** [MMTEphem.py]: the short module *)

Module Minimal.

(** An instance of the class [MMTEphem]. *)
Record MMTEphem : Type := mkMMTEphem {
  self_dateObs : string;
  self_sunset : datetime;
  self_sunrise : datetime;
  self_eveningTwilight : datetime;
  self_morningTwilight : datetime;
  self_moonrise : datetime;
  self_moonset : datetime;
  self_mmtObserver : Observer
}.

Section Provider.

(** The instant at which [ephem.Observer()] is called. *)
Variable now : datetime.
Variables next_setting next_rising : Observer -> Body -> datetime.

(** [mmtObserver(dateObs)]; the argument is not used by the body. *)
Definition mmtObserver (dateObs : string) : Observer :=
  let mmt := Observer_new now in
  let mmt := set_pressure mmt 0 in
  let mmt := set_horizon mmt "-0:34" in
  let mmt := set_lat mmt "31:41:19.6" in
  let mmt := set_lon mmt "-110:53:04.4" in
  let mmt := set_elevation mmt 2600 in
  mmt.

Definition mmtTwilightDefinition : string :=
  let twilight := "-12" in
  twilight.

(** The statements of [MMTEphem.__init__] on the observer [mmt]. *)
Definition MMTEphem_searches (dateObs19 : string) : M MMTEphem :=
  (assign_horizon "-0:34" ;;
   sunset <- ask next_setting next_rising Setting Sun ;;
   sunrise <- ask next_setting next_rising Rising Sun ;;
   assign_horizon mmtTwilightDefinition ;;
   eveningTwilight <- ask next_setting next_rising Setting Sun ;;
   morningTwilight <- ask next_setting next_rising Rising Sun ;;
   moonrise <- ask next_setting next_rising Rising Moon ;;
   moonset <- ask next_setting next_rising Setting Moon ;;
   mmt <- the_observer ;;
   ret (mkMMTEphem dateObs19 sunset sunrise eveningTwilight morningTwilight
          moonrise moonset mmt))%session.

(** [MMTEphem(dateObs)]: the new object and the searches it made. *)
Definition MMTEphem_init (dateObs : string) : MMTEphem * list Query :=
  let dateObs19 := (dateObs ++ " 19:00")%string in
  let mmt := mmtObserver dateObs in
  let (self, s) := MMTEphem_searches dateObs19 (mkSession mmt []) in
  (self, queries s).

End Provider.

End Minimal.

(** ** [original_version/MMTEphem.py]: the module with the curves *)

(** A right ascension or declination given to PyEphem: a sexagesimal string
    or a float. *)
Inductive pyangle : Type :=
| AngleStr (s : string)
| AngleFloat (x : R).

(** [ephem.FixedBody()] with the attributes the repository sets. *)
Record FixedBody : Type := mkFixedBody {
  _ra : pyangle;
  _dec : pyangle;
  _epoch : pydate
}.

(** What [star.compute(observer)] leaves in the body: [star.alt] and
    [star.az] in radians, and the value of [star.parallactic_angle()]. *)
Record Computed : Type := mkComputed {
  alt : R;
  az : R;
  parallactic_angle : R
}.

(** [ephem.J2000]. *)
Definition J2000 : pydate := DateStr "2000/1/1 12:00:00".

Module Original.

(** An instance of the class [ephem]. *)
Record ephem : Type := mk_ephem {
  self_dateObs : pydate;
  self_sunset : datetime;
  self_sunrise : datetime;
  self_eveningTwilight : datetime;
  self_morningTwilight : datetime;
  self_moonrise : datetime;
  self_moonset : datetime;
  self_mmtObserver : Observer
}.

(** [mmt.mmtObserver.date = d] on an [ephem] object [mmt]. *)
Definition assign_mmtObserver_date (mmt : ephem) (d : pydate) : ephem :=
  mk_ephem (self_dateObs mmt) (self_sunset mmt) (self_sunrise mmt)
    (self_eveningTwilight mmt) (self_morningTwilight mmt)
    (self_moonrise mmt) (self_moonset mmt)
    (set_date (self_mmtObserver mmt) d).

(** An instance of the class [ObjEphem]. *)
Record ObjEphem : Type := mkObjEphem {
  obj_dateObs : pydate;
  obj_observable : list Z;
  obj_ra : pyangle;
  obj_dec : pyangle;
  obj_time : list datetime;
  obj_airmass : list R;
  obj_parAngle : list R
}.

Definition targetObservability (time : datetime) (airmass : R) : Z :=
  let airmassCutoff := 1.8%R in
  if Rgt_dec airmass 1.0 then
    if Rlt_dec airmass airmassCutoff then 1 else 0
  else 0.

Definition alt2airmass (alt : R) : R :=
  let zenithAngle := (90.0 - alt)%R in
  let za_radians := (zenithAngle / 180.0 * PI)%R in
  let airmass := (1.0 / cos za_radians)%R in
  airmass.

Definition mmtTwilightDefinition : string :=
  let twilight := "-12" in
  twilight.

(** [observability] of [ObjEphem.__init__]: the loop over
    [range(len(airmass))]; [None] is the [IndexError] of [timeArray[ii]] or
    [airmass[ii]]. *)
Fixpoint observability_loop (timeArray : list datetime) (airmass : list R)
  (indices : list nat) : option (list Z) :=
  match indices with
  | [] => Some []
  | ii :: rest =>
      match nth_error timeArray ii, nth_error airmass ii with
      | Some time, Some a =>
          match observability_loop timeArray airmass rest with
          | Some observability =>
              Some (targetObservability time a :: observability)
          | None => None
          end
      | _, _ => None
      end
  end.

(** The argument of [moonAge]: a [datetime.datetime], an [ephem.Date] (its
    [datetime()] is the instant kept here) or a date string. *)
Inductive pytime : Type :=
| PyDatetime (t : datetime)
| PyEphemDate (t : datetime)
| PyString (s : string).

(** [timedelta.total_seconds()] of a difference of instants. *)
Definition total_seconds (td : Z) : R := (IZR td / 1000000)%R.

Section NewMoons.

(** [ephem.next_new_moon(time).datetime()] and
    [ephem.previous_new_moon(time).datetime()]. *)
Variables next_new_moon previous_new_moon : pytime -> datetime.

(** [None] is the [AttributeError] of [time.datetime()] on a string. *)
Definition moonAge (time : pytime) : option R :=
  let d1 := next_new_moon time in
  let d2 := previous_new_moon time in
  let converted :=
    match time with
    | PyDatetime t => Some t
    | PyEphemDate t => Some t
    | PyString _ => None
    end in
  match converted with
  | None => None
  | Some time =>
      if d1 - time <? time - d2
      then Some (Rabs (total_seconds (d1 - time) / 3600 / 24))
      else Some (total_seconds (time - d2) / 3600 / 24)%R
  end.

End NewMoons.

Section Provider.

Variable now : datetime.
Variables next_setting next_rising : Observer -> Body -> datetime.
(** [star.compute(observer)]. *)
Variable compute : FixedBody -> Observer -> Computed.

Definition mmtObserver : Observer :=
  let mmt := Observer_new now in
  let mmt := set_pressure mmt 0 in
  let mmt := set_horizon mmt "-0:34" in
  let mmt := set_lat mmt "31:41:19.6" in
  let mmt := set_lon mmt "-110:53:04.4" in
  let mmt := set_elevation mmt 2600 in
  mmt.

(** Returns the pair (altitude, azimuth) and the object [mmt] after the
    call. *)
Definition mmtAltAz (mmt : ephem) (ra dec : pyangle) (dateTime : pydate)
  : (R * R) * ephem :=
  let star := mkFixedBody ra dec J2000 in
  let mmt := assign_mmtObserver_date mmt dateTime in
  let star := compute star (self_mmtObserver mmt) in
  ((alt star * 180.0 / PI, az star * 180 / PI)%R, mmt).

Definition mmtParAngle (mmt : ephem) (ra dec : pyangle) (dateTime : pydate)
  : R * ephem :=
  let star := mkFixedBody ra dec J2000 in
  let mmt := assign_mmtObserver_date mmt dateTime in
  let star := compute star (self_mmtObserver mmt) in
  (parallactic_angle star, mmt).

(** The [for time in timeArray] loop of [parAngleCurve]. *)
Fixpoint parAngle_loop (mmt : ephem) (ra dec : pyangle)
  (timeArray : list datetime) : list R * ephem :=
  match timeArray with
  | [] => ([], mmt)
  | time :: rest =>
      let (parAngle, mmt) := mmtParAngle mmt ra dec (DateTime time) in
      let (airmass, mmt) := parAngle_loop mmt ra dec rest in
      (parAngle :: airmass, mmt)
  end.

Definition parAngleCurve (mmt : ephem) (ra dec : pyangle)
  : (list datetime * list R) * ephem :=
  let startTime := self_sunset mmt in
  let endTime := self_sunrise mmt in
  let timeArray := timeGrid startTime endTime in
  let (airmass, mmt) := parAngle_loop mmt ra dec timeArray in
  ((timeArray, airmass), mmt).

(** The [for time in timeArray] loop of [airmassCurve]. *)
Fixpoint airmass_loop (mmt : ephem) (ra dec : pyangle)
  (timeArray : list datetime) : list R * ephem :=
  match timeArray with
  | [] => ([], mmt)
  | time :: rest =>
      let '((alt, az), mmt) := mmtAltAz mmt ra dec (DateTime time) in
      let (airmass, mmt) := airmass_loop mmt ra dec rest in
      (alt2airmass alt :: airmass, mmt)
  end.

Definition airmassCurve (mmt : ephem) (ra dec : pyangle)
  : (list datetime * list R) * ephem :=
  let startTime := self_sunset mmt in
  let endTime := self_sunrise mmt in
  let timeArray := timeGrid startTime endTime in
  let (airmass, mmt) := airmass_loop mmt ra dec timeArray in
  ((timeArray, airmass), mmt).

(** The first statements of [ephem.__init__]: a string is cut at its first
    white space and gets the hour [19:00]; any other value is kept. *)
Definition anchor (dateObs : pydate) : option pydate :=
  match dateObs with
  | DateStr s =>
      match split_first s with
      | Some d => Some (DateStr (d ++ " 19:00")%string)
      | None => None
      end
  | DateTime _ => Some dateObs
  end.

(** The statements of [ephem.__init__] on the observer [mmt]. *)
Definition ephem_searches (dateObs : pydate) : M ephem :=
  (assign_date dateObs ;;
   assign_horizon "-0:34" ;;
   sunset <- ask next_setting next_rising Setting Sun ;;
   sunrise <- ask next_setting next_rising Rising Sun ;;
   assign_horizon mmtTwilightDefinition ;;
   eveningTwilight <- ask next_setting next_rising Setting Sun ;;
   morningTwilight <- ask next_setting next_rising Rising Sun ;;
   assign_horizon "-0:34" ;;
   moonrise <- ask next_setting next_rising Rising Moon ;;
   moonset <- ask next_setting next_rising Setting Moon ;;
   mmt <- the_observer ;;
   ret (mk_ephem dateObs sunset sunrise eveningTwilight morningTwilight
          moonrise moonset mmt))%session.

(** [ephem(dateObs)]: the new object and the searches it made; [None] is
    the [IndexError] of [split()[0]]. *)
Definition ephem_init (dateObs : pydate) : option (ephem * list Query) :=
  match anchor dateObs with
  | None => None
  | Some dateObs =>
      let mmt := mmtObserver in
      let (self, s) := ephem_searches dateObs (mkSession mmt []) in
      Some (self, queries s)
  end.

(** [ObjEphem(ra, dec, dateObs, mmtEphem)]: the new object and [mmtEphem]
    after the call; [None] is an [IndexError] in the last loop. *)
Definition ObjEphem_init (ra dec : pyangle) (dateObs : pydate)
  (mmtEphem : ephem) : option (ObjEphem * ephem) :=
  let dateObs' := self_dateObs mmtEphem in
  let mmtEphem := assign_mmtObserver_date mmtEphem (self_dateObs mmtEphem) in
  let '((timeArray, airmass), mmtEphem) := airmassCurve mmtEphem ra dec in
  let '((timeArray, parAngle), mmtEphem) := parAngleCurve mmtEphem ra dec in
  match observability_loop timeArray airmass
          (seq 0 (List.length airmass)) with
  | Some observability =>
      Some (mkObjEphem dateObs' observability ra dec timeArray airmass
              parAngle, mmtEphem)
  | None => None
  end.

End Provider.

End Original.

(** ** Vocabulary of the statements *)

(** Number of turns of the loop when the last instant is [x]. *)
Definition turns (x endTime : datetime) : nat :=
  Z.to_nat ((endTime - x + timedelta - 1) / timedelta).

(** The instants appended after [x]: [x + 5min, x + 10min, ...]. *)
Definition steps_from (x : datetime) (n : nat) : list datetime :=
  map (fun i => x + Z.of_nat i * timedelta) (seq 1 n).

(** Ceiling of a quotient of integers ([Z.div] rounds down). *)
Definition ceil_div (a b : Z) : Z := - ((- a) / b).

(** What the specification asks of the sequence of instants [t] of a curve
    between [sunset] and [sunrise]:
    - it starts at [sunset];
    - two neighbours are five minutes apart;
    - its last instant is at or after [sunrise], and no earlier one is;
    - it has [ceil ((sunrise - sunset) / 5 min) + 1] instants;
    - it is strictly ascending. *)
Definition five_minute_grid (t : list datetime) (sunset sunrise : datetime)
  : Prop :=
  hd_error t = Some sunset
  /\ (forall i a b, nth_error t i = Some a -> nth_error t (S i) = Some b ->
        b - a = timedelta_minutes 5)
  /\ (sunrise <= last t 0
      /\ forall i a, (S i < List.length t)%nat -> nth_error t i = Some a ->
           a < sunrise)
  /\ Z.of_nat (List.length t)
     = ceil_div (sunrise - sunset) (timedelta_minutes 5) + 1
  /\ (forall i j a b, (i < j)%nat ->
        nth_error t i = Some a -> nth_error t j = Some b -> a < b).

(** What a call leaves of the object [mmt]: every attribute of the object
    and every field of its observer is as before, except the observer's
    date, which is [dateTime]. *)
Definition only_date_assigned (mmt mmt' : Original.ephem)
  (dateTime : pydate) : Prop :=
  let o := Original.self_mmtObserver mmt in
  let o' := Original.self_mmtObserver mmt' in
  lat o' = lat o /\ lon o' = lon o /\ elevation o' = elevation o
  /\ pressure o' = pressure o /\ horizon o' = horizon o
  /\ date o' = dateTime
  /\ Original.self_dateObs mmt' = Original.self_dateObs mmt
  /\ Original.self_sunset mmt' = Original.self_sunset mmt
  /\ Original.self_sunrise mmt' = Original.self_sunrise mmt
  /\ Original.self_eveningTwilight mmt' = Original.self_eveningTwilight mmt
  /\ Original.self_morningTwilight mmt' = Original.self_morningTwilight mmt
  /\ Original.self_moonrise mmt' = Original.self_moonrise mmt
  /\ Original.self_moonset mmt' = Original.self_moonset mmt.

(** The fields that a curve reads, [sunset] and [sunrise], and the site of
    the observer survive the loops of both curves. *)
Definition same_night (mmt mmt' : Original.ephem) : Prop :=
  Original.self_sunset mmt' = Original.self_sunset mmt
  /\ Original.self_sunrise mmt' = Original.self_sunrise mmt
  /\ Original.self_dateObs mmt' = Original.self_dateObs mmt
  /\ set_date (Original.self_mmtObserver mmt') (DateTime 0)
     = set_date (Original.self_mmtObserver mmt) (DateTime 0).

(** A search as the kind, the body and the horizon of the observer. *)
Definition search_horizon (q : Query) : Search * Body * string :=
  (q_search q, q_body q, horizon (q_observer q)).

(** The observer of [original_version/MMTEphem.py] at the date [d] with
    the horizon [h]. *)
Definition mmt_at (now : datetime) (d : pydate) (h : string) : Observer :=
  set_horizon (set_date (Original.mmtObserver now) d) h.

(** The body of the target as [star.compute] leaves it when the observer
    of [mmt] has its date at the instant [t]. *)
Definition star_at (compute : FixedBody -> Observer -> Computed)
  (mmt : Original.ephem) (ra dec : pyangle) (t : datetime) : Computed :=
  compute (mkFixedBody ra dec J2000)
    (set_date (Original.self_mmtObserver mmt) (DateTime t)).

(** The airmass of the target at the instant [t]. *)
Definition airmass_at (compute : FixedBody -> Observer -> Computed)
  (mmt : Original.ephem) (ra dec : pyangle) (t : datetime) : R :=
  Original.alt2airmass (alt (star_at compute mmt ra dec t) * 180.0 / PI)%R.

(** The parallactic angle of the target at the instant [t]. *)
Definition parAngle_at (compute : FixedBody -> Observer -> Computed)
  (mmt : Original.ephem) (ra dec : pyangle) (t : datetime) : R :=
  parallactic_angle (star_at compute mmt ra dec t).



(** Microseconds in a day, as a real number. *)
Definition day_R : R := IZR day.

(** The state of the object after a loop over [timeArray]. *)
Definition after_loop (mmt : Original.ephem) (timeArray : list datetime)
  : Original.ephem :=
  match timeArray with
  | [] => mmt
  | _ :: _ =>
      Original.assign_mmtObserver_date mmt (DateTime (last timeArray 0))
  end.

(** ** The contract of the rise and set searches

    PyEphem is outside the repository; what the specification assumes of
    it is stated on the altitude of the Sun at the site, [altitude t], in
    the unit of the horizon angles, one value per instant. *)

(** The body goes below the altitude [h] between [t - 1] and [t]. *)
Definition sets_at (altitude : datetime -> Z) (h : Z) (t : datetime) : Prop :=
  h <= altitude (t - 1) /\ altitude t < h.

(** The body comes up to the altitude [h] between [t - 1] and [t]. *)
Definition rises_at (altitude : datetime -> Z) (h : Z) (t : datetime) : Prop :=
  altitude (t - 1) < h /\ h <= altitude t.

(** [t] is the first instant after [a] at which [P] holds. *)
Definition first_after (P : datetime -> Prop) (a t : datetime) : Prop :=
  a < t /\ P t /\ forall u, a < u < t -> ~ P u.

(** The observer stands at the site of the MMT. *)
Definition at_mmt (o : Observer) : Prop :=
  lat o = "31:41:19.6" /\ lon o = "-110:53:04.4"
  /\ elevation o = 2600 /\ pressure o = 0.

(** For an observer at the MMT, [next_setting] and [next_rising] of the Sun
    return the first crossing of the observer's horizon after the
    observer's date, whenever there is one.  [instant] and [angle] are
    PyEphem's readings of a date and of an angle. *)
Definition first_crossing_contract
  (next_setting next_rising : Observer -> Body -> datetime)
  (instant : pydate -> datetime) (angle : string -> Z)
  (altitude : datetime -> Z) : Prop :=
  (forall o, at_mmt o ->
     (exists t, instant (date o) < t
                /\ sets_at altitude (angle (horizon o)) t) ->
     first_after (sets_at altitude (angle (horizon o)))
       (instant (date o)) (next_setting o Sun))
  /\ (forall o, at_mmt o ->
        (exists t, instant (date o) < t
                   /\ rises_at altitude (angle (horizon o)) t) ->
        first_after (rises_at altitude (angle (horizon o)))
          (instant (date o)) (next_rising o Sun)).

(** The night that follows the instant [a], for the standard horizon [std]
    and the twilight horizon [twi]:
    - the twilight horizon is the deeper one;
    - from one instant to the next the altitude of the Sun moves by less
      than the distance of the two horizons;
    - the Sun is up at [a];
    - after [a] the Sun goes below the twilight horizon before it next
      rises;
    - in any 24 hours there is an instant at which the Sun is up. *)
Definition ordinary_night (altitude : datetime -> Z) (std twi : Z)
  (a : datetime) : Prop :=
  twi < std
  /\ (forall t, Z.abs (altitude t - altitude (t - 1)) < std - twi)
  /\ std <= altitude a
  /\ (exists u, a < u /\ altitude u < twi
                /\ forall v, a < v <= u -> ~ rises_at altitude std v)
  /\ (forall t, exists u, t <= u < t + day /\ std <= altitude u).

(** ** Concrete instances

    A provider, a night and a target on which the statements below are
    evaluated. *)

(** A [compute] that puts every target at altitude, azimuth and
    parallactic angle zero. *)
Definition compute_zero (star : FixedBody) (o : Observer) : Computed :=
  mkComputed 0 0 0.

(** A night of twelve minutes. *)
Definition short_night : Original.ephem :=
  Original.mk_ephem (DateStr "2016/02/09 19:00")
    0 (timedelta_minutes 12) (timedelta_minutes 2) (timedelta_minutes 10)
    (timedelta_minutes 3) (timedelta_minutes 9)
    (set_date (Original.mmtObserver 0) (DateStr "2016/02/09 19:00")).

(** A Sun that is 1000 units up until the instant 0, goes down by one unit
    per instant to 1000 units below, comes back up at the same pace and is
    up from the instant 4000 on; horizons at 34 and 720 units below; every
    date read as the instant 0. *)
Definition sample_altitude (t : datetime) : Z :=
  if t <? 0 then 1000
  else if t <? 2000 then 1000 - t
  else if t <? 4000 then t - 3000
  else 1000.

Definition sample_angle (h : string) : Z :=
  if String.eqb h "-12" then -720 else -34.

Definition sample_instant (d : pydate) : datetime := 0.

Definition sample_next_setting (o : Observer) (b : Body) : datetime :=
  if sample_angle (horizon o) =? -720 then 1721 else 1035.

Definition sample_next_rising (o : Observer) (b : Body) : datetime :=
  if sample_angle (horizon o) =? -720 then 2280 else 2966.

(** Case analysis on the pieces of [sample_altitude]. *)
Ltac sample_cases :=
  unfold sets_at, rises_at, sample_altitude in *;
  repeat match goal with
    | |- context [?x <? ?y] => destruct (Z.ltb_spec x y)
    | H : context [?x <? ?y] |- _ => destruct (Z.ltb_spec x y)
    end;
  lia.

(** New moons at fixed instants: the last one at 0, the next one 29 days
    and a half later. *)
Definition sample_previous_new_moon (time : Original.pytime) : datetime := 0.

Definition sample_next_new_moon (time : Original.pytime) : datetime :=
  59 * (day / 2).

(** * Properties *)

(** ** The time grid *)

Lemma timedelta_pos : 0 < timedelta.
Proof. reflexivity. Qed.

Example timeGrid_12min :
  timeGrid 0 (timedelta_minutes 12)
  = [0; timedelta_minutes 5; timedelta_minutes 10; timedelta_minutes 15].
Proof. reflexivity. Qed.

(** *** The loop, one turn at a time *)

Lemma grid_loop_continue endTime timeArray :
  last timeArray 0 < endTime ->
  grid_loop endTime timeArray
  = grid_loop endTime (timeArray ++ [last timeArray 0 + timedelta]).
Proof.
  intros Hlt. rewrite (grid_loop_equation_1 endTime timeArray).
  destruct (Z_lt_dec (last timeArray 0) endTime); cbn;
    [reflexivity | contradiction].
Qed.

Lemma grid_loop_stop endTime timeArray :
  endTime <= last timeArray 0 -> grid_loop endTime timeArray = timeArray.
Proof.
  intros Hge. rewrite (grid_loop_equation_1 endTime timeArray).
  destruct (Z_lt_dec (last timeArray 0) endTime); cbn; [lia | reflexivity].
Qed.

Lemma turns_stop x endTime : endTime <= x -> turns x endTime = O.
Proof.
  intros H. unfold turns.
  assert ((endTime - x + timedelta - 1) / timedelta <= 0); [| lia].
  pose proof timedelta_pos.
  assert ((endTime - x + timedelta - 1) / timedelta < 1); [| lia].
  apply Z.div_lt_upper_bound; lia.
Qed.

Lemma turns_continue x endTime :
  x < endTime -> turns x endTime = S (turns (x + timedelta) endTime).
Proof.
  intros H. unfold turns. pose proof timedelta_pos as Hp.
  replace (endTime - x + timedelta - 1)
    with ((endTime - (x + timedelta) + timedelta - 1) + 1 * timedelta) by ring.
  rewrite Z.div_add by lia.
  assert (0 <= (endTime - (x + timedelta) + timedelta - 1) / timedelta)
    by (apply Z.div_pos; lia).
  lia.
Qed.

Lemma steps_from_S x n :
  steps_from x (S n) = (x + timedelta) :: steps_from (x + timedelta) n.
Proof.
  unfold steps_from. cbn [seq map].
  replace (x + Z.of_nat 1 * timedelta) with (x + timedelta) by lia.
  f_equal. rewrite <- seq_shift, map_map. apply map_ext. intros i. lia.
Qed.

Lemma grid_loop_closed n : forall endTime timeArray,
  turns (last timeArray 0) endTime = n ->
  grid_loop endTime timeArray
  = timeArray ++ steps_from (last timeArray 0) n.
Proof.
  induction n as [| n IH]; intros endTime timeArray Hn.
  - destruct (Z_lt_dec (last timeArray 0) endTime) as [Hlt | Hge].
    + rewrite turns_continue in Hn by assumption. discriminate.
    + rewrite grid_loop_stop by lia. cbn. now rewrite app_nil_r.
  - destruct (Z_lt_dec (last timeArray 0) endTime) as [Hlt | Hge].
    + rewrite grid_loop_continue by assumption.
      rewrite turns_continue in Hn by assumption. injection Hn as Hn.
      rewrite IH by (rewrite last_last; exact Hn).
      rewrite last_last, steps_from_S, <- app_assoc. reflexivity.
    + rewrite turns_stop in Hn by lia. discriminate.
Qed.

Lemma timeGrid_closed startTime endTime :
  timeGrid startTime endTime
  = startTime :: steps_from startTime (turns startTime endTime).
Proof.
  unfold timeGrid. now rewrite (grid_loop_closed _ _ _ eq_refl).
Qed.

Lemma grid_run_enough n : forall fuel endTime timeArray,
  turns (last timeArray 0) endTime = n ->
  (n < fuel)%nat ->
  grid_run fuel endTime timeArray = Some (grid_loop endTime timeArray).
Proof.
  induction n as [| n IH]; intros fuel endTime timeArray Hn Hfuel;
    (destruct fuel as [| fuel]; [lia |]); cbn [grid_run];
    destruct (Z.ltb_spec (last timeArray 0) endTime) as [Hlt | Hge].
  - rewrite turns_continue in Hn by assumption. discriminate.
  - now rewrite grid_loop_stop.
  - rewrite turns_continue in Hn by assumption. injection Hn as Hn.
    rewrite grid_loop_continue by assumption.
    apply IH; [rewrite last_last; exact Hn | lia].
  - rewrite turns_stop in Hn by lia. discriminate.
Qed.

Lemma ceil_div_shift a b : 0 < b -> (a + b - 1) / b = ceil_div a b.
Proof.
  intros Hb. unfold ceil_div.
  pose proof (Z.div_mod (a + b - 1) b ltac:(lia)) as H1.
  pose proof (Z.mod_pos_bound (a + b - 1) b Hb) as H2.
  symmetry. apply Z.opp_inj. rewrite Z.opp_involutive. symmetry.
  apply (Z.div_unique (- a) b _ (b - 1 - (a + b - 1) mod b)); lia.
Qed.

Lemma turns_bounds x endTime :
  x < endTime ->
  (0 < turns x endTime)%nat
  /\ x + (Z.of_nat (turns x endTime) - 1) * timedelta < endTime
  /\ endTime <= x + Z.of_nat (turns x endTime) * timedelta.
Proof.
  intros Hlt. unfold turns. pose proof timedelta_pos as Hp.
  set (q := (endTime - x + timedelta - 1) / timedelta).
  pose proof (Z.div_mod (endTime - x + timedelta - 1) timedelta ltac:(lia)) as H1.
  pose proof (Z.mod_pos_bound (endTime - x + timedelta - 1) timedelta Hp) as H2.
  fold q in H1.
  assert (1 <= q) by (apply Z.div_le_lower_bound; lia).
  rewrite Z2Nat.id by lia. repeat split; nia.
Qed.

Lemma timeGrid_as_map startTime endTime :
  timeGrid startTime endTime
  = map (fun i => startTime + Z.of_nat i * timedelta)
      (seq 0 (S (turns startTime endTime))).
Proof.
  rewrite timeGrid_closed. unfold steps_from. cbn [seq map].
  f_equal. lia.
Qed.

Lemma timeGrid_length startTime endTime :
  List.length (timeGrid startTime endTime) = S (turns startTime endTime).
Proof. now rewrite timeGrid_as_map, length_map, length_seq. Qed.

Lemma timeGrid_nth startTime endTime i :
  nth_error (timeGrid startTime endTime) i
  = if (i <=? turns startTime endTime)%nat
    then Some (startTime + Z.of_nat i * timedelta)
    else None.
Proof.
  rewrite timeGrid_as_map.
  destruct (Nat.leb_spec i (turns startTime endTime)) as [Hle | Hgt].
  - rewrite nth_error_map, nth_error_seq.
    destruct (Nat.ltb_spec i (S (turns startTime endTime))); [| lia].
    reflexivity.
  - apply nth_error_None. rewrite length_map, length_seq. lia.
Qed.

Lemma timeGrid_nth_Some startTime endTime i a :
  nth_error (timeGrid startTime endTime) i = Some a ->
  (i <= turns startTime endTime)%nat
  /\ a = startTime + Z.of_nat i * timedelta.
Proof.
  rewrite timeGrid_nth.
  destruct (Nat.leb_spec i (turns startTime endTime)) as [Hle | Hgt];
    [| discriminate].
  intros Heq. split; [assumption | congruence].
Qed.

Lemma timeGrid_last startTime endTime :
  last (timeGrid startTime endTime) 0
  = startTime + Z.of_nat (turns startTime endTime) * timedelta.
Proof.
  rewrite timeGrid_as_map, seq_S, map_app. cbn [map].
  now rewrite last_last.
Qed.

Lemma airmass_loop_length compute : forall timeArray mmt ra dec,
  List.length (fst (Original.airmass_loop compute mmt ra dec timeArray))
  = List.length timeArray.
Proof.
  induction timeArray as [| time rest IH]; intros mmt ra dec; [reflexivity |].
  cbn [Original.airmass_loop].
  destruct (Original.mmtAltAz compute mmt ra dec (DateTime time))
    as [[altitude azimuth] mmt1].
  specialize (IH mmt1 ra dec).
  destruct (Original.airmass_loop compute mmt1 ra dec rest) as [airmass mmt2].
  cbn in *. now rewrite IH.
Qed.

Lemma parAngle_loop_length compute : forall timeArray mmt ra dec,
  List.length (fst (Original.parAngle_loop compute mmt ra dec timeArray))
  = List.length timeArray.
Proof.
  induction timeArray as [| time rest IH]; intros mmt ra dec; [reflexivity |].
  cbn [Original.parAngle_loop].
  destruct (Original.mmtParAngle compute mmt ra dec (DateTime time))
    as [parAngle mmt1].
  specialize (IH mmt1 ra dec).
  destruct (Original.parAngle_loop compute mmt1 ra dec rest) as [airmass mmt2].
  cbn in *. now rewrite IH.
Qed.

Lemma airmassCurve_times compute mmt ra dec :
  fst (fst (Original.airmassCurve compute mmt ra dec))
  = timeGrid (Original.self_sunset mmt) (Original.self_sunrise mmt).
Proof.
  unfold Original.airmassCurve.
  destruct (Original.airmass_loop compute mmt ra dec _). reflexivity.
Qed.

Lemma parAngleCurve_times compute mmt ra dec :
  fst (fst (Original.parAngleCurve compute mmt ra dec))
  = timeGrid (Original.self_sunset mmt) (Original.self_sunrise mmt).
Proof.
  unfold Original.parAngleCurve.
  destruct (Original.parAngle_loop compute mmt ra dec _). reflexivity.
Qed.

Lemma airmassCurve_values compute mmt ra dec :
  List.length (snd (fst (Original.airmassCurve compute mmt ra dec)))
  = List.length (timeGrid (Original.self_sunset mmt) (Original.self_sunrise mmt)).
Proof.
  unfold Original.airmassCurve.
  pose proof (airmass_loop_length compute
    (timeGrid (Original.self_sunset mmt) (Original.self_sunrise mmt))
    mmt ra dec) as H.
  destruct (Original.airmass_loop compute mmt ra dec _). exact H.
Qed.

Lemma parAngleCurve_values compute mmt ra dec :
  List.length (snd (fst (Original.parAngleCurve compute mmt ra dec)))
  = List.length (timeGrid (Original.self_sunset mmt) (Original.self_sunrise mmt)).
Proof.
  unfold Original.parAngleCurve.
  pose proof (parAngle_loop_length compute
    (timeGrid (Original.self_sunset mmt) (Original.self_sunrise mmt))
    mmt ra dec) as H.
  destruct (Original.parAngle_loop compute mmt ra dec _). exact H.
Qed.

Lemma timeGrid_five_minute_grid sunset sunrise :
  sunset < sunrise -> five_minute_grid (timeGrid sunset sunrise) sunset sunrise.
Proof.
  intros Hnight. pose proof timedelta_pos as Hp.
  destruct (turns_bounds sunset sunrise Hnight) as (Hn & Hbefore & Hafter).
  unfold five_minute_grid. repeat split.
  - now rewrite timeGrid_closed.
  - intros i a b Ha Hb.
    apply timeGrid_nth_Some in Ha, Hb. destruct Ha as [_ ->], Hb as [_ ->].
    change (timedelta_minutes 5) with timedelta. lia.
  - now rewrite timeGrid_last.
  - intros i a Hi Ha. rewrite timeGrid_length in Hi.
    apply timeGrid_nth_Some in Ha. destruct Ha as [_ ->]. nia.
  - rewrite timeGrid_length. change (timedelta_minutes 5) with timedelta.
    rewrite <- ceil_div_shift by exact Hp. unfold turns.
    rewrite Nat2Z.inj_succ, Z2Nat.id; [lia |].
    apply Z.div_pos; lia.
  - intros i j a b Hij Ha Hb.
    apply timeGrid_nth_Some in Ha, Hb. destruct Ha as [_ ->], Hb as [_ ->].
    nia.
Qed.

(** C4.  For a night with [sunset < sunrise] and any target, the instants
    of the curve built by [airmassCurve] start at the sunset, advance by
    exactly five minutes, end with the first instant at or after the
    sunrise (kept, not clamped), number [ceil ((sunrise - sunset) / 5 min) + 1]
    and are strictly ascending. *)
Theorem airmassCurve_time_grid
  (compute : FixedBody -> Observer -> Computed)
  (night : Original.ephem) (ra dec : pyangle) :
  Original.self_sunset night < Original.self_sunrise night ->
  five_minute_grid (fst (fst (Original.airmassCurve compute night ra dec)))
    (Original.self_sunset night) (Original.self_sunrise night).
Proof.
  intros Hnight. rewrite airmassCurve_times.
  now apply timeGrid_five_minute_grid.
Qed.

(** The same grid comes out of [parAngleCurve]. *)
Lemma parAngleCurve_time_grid
  (compute : FixedBody -> Observer -> Computed)
  (night : Original.ephem) (ra dec : pyangle) :
  Original.self_sunset night < Original.self_sunrise night ->
  five_minute_grid (fst (fst (Original.parAngleCurve compute night ra dec)))
    (Original.self_sunset night) (Original.self_sunrise night).
Proof.
  intros Hnight. rewrite parAngleCurve_times.
  now apply timeGrid_five_minute_grid.
Qed.

Lemma airmassCurve_time_grid_witness :
  five_minute_grid
    (fst (fst (Original.airmassCurve compute_zero short_night
                 (AngleStr "8:00:00") (AngleStr "30:00:00"))))
    0 (timedelta_minutes 12).
Proof.
  apply (airmassCurve_time_grid compute_zero short_night).
  reflexivity.
Defined.

(** C8.  The loop that builds the grid of a curve stops for all bounds:
    with enough turns allowed it returns the grid of [airmassCurve] and of
    [parAngleCurve].  Neither curve is empty, and when the sunset is not
    before the sunrise the guard fails at once and the grid is the single
    instant of the sunset. *)
Theorem curve_grid_terminates
  (compute : FixedBody -> Observer -> Computed)
  (night : Original.ephem) (ra dec : pyangle) :
  let sunset := Original.self_sunset night in
  let sunrise := Original.self_sunrise night in
  let airmass := Original.airmassCurve compute night ra dec in
  let parAngle := Original.parAngleCurve compute night ra dec in
  (exists fuel, forall fuel', (fuel <= fuel')%nat ->
     grid_run fuel' sunrise [sunset] = Some (fst (fst airmass))
     /\ grid_run fuel' sunrise [sunset] = Some (fst (fst parAngle)))
  /\ fst (fst airmass) <> [] /\ snd (fst airmass) <> []
  /\ fst (fst parAngle) <> [] /\ snd (fst parAngle) <> []
  /\ (sunrise <= sunset ->
      grid_run 1 sunrise [sunset] = Some [sunset]
      /\ fst (fst airmass) = [sunset] /\ fst (fst parAngle) = [sunset]).
Proof.
  intros sunset sunrise airmass parAngle.
  assert (Ha : fst (fst airmass) = timeGrid sunset sunrise)
    by apply airmassCurve_times.
  assert (Hp : fst (fst parAngle) = timeGrid sunset sunrise)
    by apply parAngleCurve_times.
  assert (Hla : List.length (snd (fst airmass))
                = S (turns sunset sunrise)).
  { unfold airmass. rewrite airmassCurve_values. apply timeGrid_length. }
  assert (Hlp : List.length (snd (fst parAngle))
                = S (turns sunset sunrise)).
  { unfold parAngle. rewrite parAngleCurve_values. apply timeGrid_length. }
  assert (Hne : timeGrid sunset sunrise <> [])
    by (rewrite timeGrid_closed; discriminate).
  rewrite Ha, Hp. repeat split.
  - exists (S (turns sunset sunrise)). intros fuel' Hfuel.
    assert (grid_run fuel' sunrise [sunset] = Some (timeGrid sunset sunrise)).
    { apply (grid_run_enough (turns sunset sunrise)); [reflexivity | lia]. }
    now split.
  - exact Hne.
  - intros Hnil. rewrite Hnil in Hla. discriminate.
  - exact Hne.
  - intros Hnil. rewrite Hnil in Hlp. discriminate.
  - cbn. destruct (Z.ltb_spec sunset sunrise); [lia | reflexivity].
  - rewrite timeGrid_closed, turns_stop by assumption. reflexivity.
  - rewrite timeGrid_closed, turns_stop by assumption. reflexivity.
Qed.

(** ** The observability flag *)

(** C5.  [targetObservability] returns 1 exactly when the airmass lies
    strictly between 1.0 and 1.8, and 0 otherwise; it returns 0 at 1.0 and
    at 1.8; its result does not depend on the time. *)
Theorem targetObservability_spec (time : datetime) (airmass : R) :
  (Original.targetObservability time airmass = 1
   <-> (1.0 < airmass < 1.8)%R)
  /\ (Original.targetObservability time airmass = 0
      <-> ~ (1.0 < airmass < 1.8)%R)
  /\ Original.targetObservability time 1.0 = 0
  /\ Original.targetObservability time 1.8 = 0
  /\ (forall time' : datetime,
        Original.targetObservability time' airmass
        = Original.targetObservability time airmass).
Proof.
  unfold Original.targetObservability. repeat split.
  - destruct (Rgt_dec airmass 1.0); [| discriminate].
    destruct (Rlt_dec airmass 1.8); [| discriminate]. lra.
  - destruct (Rgt_dec airmass 1.0); [| discriminate].
    destruct (Rlt_dec airmass 1.8); [| discriminate]. lra.
  - intros [Hlo Hhi].
    destruct (Rgt_dec airmass 1.0); [| lra].
    destruct (Rlt_dec airmass 1.8); [reflexivity | lra].
  - destruct (Rgt_dec airmass 1.0); [| lra].
    destruct (Rlt_dec airmass 1.8); [discriminate | lra].
  - intros Hout.
    destruct (Rgt_dec airmass 1.0); [| reflexivity].
    destruct (Rlt_dec airmass 1.8); [| reflexivity].
    exfalso. apply Hout. lra.
  - destruct (Rgt_dec 1.0 1.0); [lra | reflexivity].
  - destruct (Rgt_dec 1.8 1.0); [| reflexivity].
    destruct (Rlt_dec 1.8 1.8); [lra | reflexivity].
Qed.

(** ** The transform: [mmtAltAz] and [mmtParAngle] *)

Section Transform.

Variable compute : FixedBody -> Observer -> Computed.

(** C7.  The altitude and the azimuth returned by [mmtAltAz] are the
    radian values of the provider times [180 / pi]; the parallactic angle
    returned by [mmtParAngle] is the provider's value as it is. *)
Theorem transform_units (mmt : Original.ephem) (ra dec : pyangle)
  (dateTime : pydate) :
  let star :=
    compute (mkFixedBody ra dec J2000)
      (set_date (Original.self_mmtObserver mmt) dateTime) in
  fst (Original.mmtAltAz compute mmt ra dec dateTime)
  = (alt star * (180 / PI), az star * (180 / PI))%R
  /\ fst (Original.mmtParAngle compute mmt ra dec dateTime)
     = parallactic_angle star.
Proof.
  intros star. pose proof PI_neq0 as Hpi.
  unfold Original.mmtAltAz, Original.mmtParAngle. cbn [fst].
  split; [| reflexivity].
  assert (Hlit : 180.0%R = 180%R) by lra.
  f_equal; cbn; rewrite ?Hlit; subst star; field; exact Hpi.
Qed.

(** C9.  A call to [mmtAltAz] or to [mmtParAngle] assigns the date of the
    shared observer and nothing else: latitude, longitude, elevation,
    pressure and horizon are unchanged. *)
Theorem transform_frame (mmt : Original.ephem) (ra dec : pyangle)
  (dateTime : pydate) :
  only_date_assigned mmt
    (snd (Original.mmtAltAz compute mmt ra dec dateTime)) dateTime
  /\ only_date_assigned mmt
       (snd (Original.mmtParAngle compute mmt ra dec dateTime)) dateTime.
Proof.
  unfold Original.mmtAltAz, Original.mmtParAngle, only_date_assigned.
  cbn [snd]. destruct mmt as [d s1 s2 e m r1 r2 [p h la lo el da]].
  cbn. repeat split.
Qed.

Lemma same_night_refl mmt : same_night mmt mmt.
Proof. repeat split. Qed.

Lemma same_night_trans m1 m2 m3 :
  same_night m1 m2 -> same_night m2 m3 -> same_night m1 m3.
Proof.
  unfold same_night. intros (? & ? & ? & ?) (? & ? & ? & ?).
  repeat split; congruence.
Qed.

Lemma same_night_assign mmt d :
  same_night mmt (Original.assign_mmtObserver_date mmt d).
Proof. repeat split. Qed.

Lemma airmass_loop_same_night : forall timeArray mmt ra dec,
  same_night mmt (snd (Original.airmass_loop compute mmt ra dec timeArray)).
Proof.
  induction timeArray as [| time rest IH]; intros mmt ra dec.
  - apply same_night_refl.
  - cbn [Original.airmass_loop]. unfold Original.mmtAltAz.
    specialize (IH (Original.assign_mmtObserver_date mmt (DateTime time))
                  ra dec).
    destruct (Original.airmass_loop compute _ ra dec rest) as [airmass mmt2].
    cbn [snd] in *.
    eapply same_night_trans; [apply same_night_assign | exact IH].
Qed.

Lemma parAngle_loop_same_night : forall timeArray mmt ra dec,
  same_night mmt (snd (Original.parAngle_loop compute mmt ra dec timeArray)).
Proof.
  induction timeArray as [| time rest IH]; intros mmt ra dec.
  - apply same_night_refl.
  - cbn [Original.parAngle_loop]. unfold Original.mmtParAngle.
    specialize (IH (Original.assign_mmtObserver_date mmt (DateTime time))
                  ra dec).
    destruct (Original.parAngle_loop compute _ ra dec rest) as [airmass mmt2].
    cbn [snd] in *.
    eapply same_night_trans; [apply same_night_assign | exact IH].
Qed.

Lemma airmassCurve_same_night mmt ra dec :
  same_night mmt (snd (Original.airmassCurve compute mmt ra dec)).
Proof.
  unfold Original.airmassCurve.
  pose proof (airmass_loop_same_night
    (timeGrid (Original.self_sunset mmt) (Original.self_sunrise mmt))
    mmt ra dec) as H.
  destruct (Original.airmass_loop compute mmt ra dec _). exact H.
Qed.

End Transform.

(** ** The sequences of an [ObjEphem] *)

Lemma observability_loop_total timeArray airmass : forall indices,
  (forall ii, In ii indices ->
     (ii < List.length timeArray)%nat /\ (ii < List.length airmass)%nat) ->
  exists observability,
    Original.observability_loop timeArray airmass indices = Some observability
    /\ List.length observability = List.length indices.
Proof.
  induction indices as [| ii rest IH]; intros Hin.
  - exists []. split; reflexivity.
  - destruct (Hin ii (or_introl eq_refl)) as [Ht Ha].
    destruct (nth_error timeArray ii) as [time |] eqn:Etime;
      [| apply nth_error_None in Etime; lia].
    destruct (nth_error airmass ii) as [a |] eqn:Eair;
      [| apply nth_error_None in Eair; lia].
    destruct IH as (observability & Hloop & Hlen).
    { intros jj Hjj. apply Hin. now right. }
    exists (Original.targetObservability time a :: observability).
    cbn [Original.observability_loop]. rewrite Etime, Eair, Hloop.
    split; [reflexivity | cbn; now rewrite Hlen].
Qed.

(** C10.  [ObjEphem(ra, dec, dateObs, mmtEphem)] is built without an index
    error, and its sequences [time], [airmass], [parAngle] and [observable]
    have one length: both curves build the grid from the same sunset and
    sunrise. *)
Theorem ObjEphem_sequences
  (compute : FixedBody -> Observer -> Computed)
  (ra dec : pyangle) (dateObs : pydate) (mmtEphem : Original.ephem) :
  exists obj mmtEphem',
    Original.ObjEphem_init compute ra dec dateObs mmtEphem
    = Some (obj, mmtEphem')
    /\ List.length (Original.obj_airmass obj)
       = List.length (Original.obj_time obj)
    /\ List.length (Original.obj_parAngle obj)
       = List.length (Original.obj_time obj)
    /\ List.length (Original.obj_observable obj)
       = List.length (Original.obj_time obj)
    /\ Original.obj_time obj
       = timeGrid (Original.self_sunset mmtEphem)
           (Original.self_sunrise mmtEphem).
Proof.
  unfold Original.ObjEphem_init.
  set (mmt0 := Original.assign_mmtObserver_date mmtEphem
                 (Original.self_dateObs mmtEphem)).
  pose proof (airmassCurve_times compute mmt0 ra dec) as Ht1.
  pose proof (airmassCurve_values compute mmt0 ra dec) as Ha1.
  pose proof (airmassCurve_same_night compute mmt0 ra dec) as Hsame.
  destruct (Original.airmassCurve compute mmt0 ra dec)
    as [[timeArray1 airmass] mmt1].
  cbn [fst snd] in Ht1, Ha1, Hsame.
  pose proof (parAngleCurve_times compute mmt1 ra dec) as Ht2.
  pose proof (parAngleCurve_values compute mmt1 ra dec) as Hp2.
  destruct (Original.parAngleCurve compute mmt1 ra dec)
    as [[timeArray parAngle] mmt2].
  cbn [fst snd] in Ht2, Hp2.
  destruct Hsame as (Hset & Hrise & _).
  rewrite Hset, Hrise in Ht2, Hp2.
  change (Original.self_sunset mmt0) with (Original.self_sunset mmtEphem)
    in *.
  change (Original.self_sunrise mmt0) with (Original.self_sunrise mmtEphem)
    in *.
  destruct (observability_loop_total timeArray airmass
              (seq 0 (List.length airmass)))
    as (observability & Hloop & Hlen).
  { intros ii Hii. apply in_seq in Hii. rewrite Ht2, Ha1. lia. }
  rewrite Hloop. eexists. eexists. split; [reflexivity |].
  cbn. rewrite Hlen, length_seq, Ha1, Hp2, Ht2. repeat split.
Qed.

(** ** The searches of the night ephemeris *)

Example split_first_date : split_first "2016/02/09" = Some "2016/02/09".
Proof. reflexivity. Qed.

Example split_first_date_time :
  split_first "  2016/02/09 03:00 " = Some "2016/02/09".
Proof. reflexivity. Qed.

Example split_first_blank : split_first "   " = None.
Proof. reflexivity. Qed.

Example anchor_of_date :
  Original.anchor (DateStr "2016/02/09 03:00")
  = Some (DateStr "2016/02/09 19:00").
Proof. reflexivity. Qed.

Example sample_night_instants :
  option_map
    (fun night =>
       (Original.self_eveningTwilight (fst night),
        Original.self_sunset (fst night),
        Original.self_morningTwilight (fst night),
        Original.self_sunrise (fst night)))
    (Original.ephem_init 0 sample_next_setting sample_next_rising
       (DateStr "2016/02/09"))
  = Some (1721, 1035, 2280, 2966).
Proof. reflexivity. Qed.

Section NightSearches.

Variable now : datetime.
Variables next_setting next_rising : Observer -> Body -> datetime.

Lemma ephem_init_searches (dateObs d : pydate) :
  Original.anchor dateObs = Some d ->
  exists self,
    Original.ephem_init now next_setting next_rising dateObs
    = Some (self,
            [mkQuery Setting Sun (mmt_at now d "-0:34");
             mkQuery Rising Sun (mmt_at now d "-0:34");
             mkQuery Setting Sun (mmt_at now d "-12");
             mkQuery Rising Sun (mmt_at now d "-12");
             mkQuery Rising Moon (mmt_at now d "-0:34");
             mkQuery Setting Moon (mmt_at now d "-0:34")])
    /\ Original.self_dateObs self = d
    /\ Original.self_sunset self = next_setting (mmt_at now d "-0:34") Sun
    /\ Original.self_sunrise self = next_rising (mmt_at now d "-0:34") Sun
    /\ Original.self_eveningTwilight self = next_setting (mmt_at now d "-12") Sun
    /\ Original.self_morningTwilight self = next_rising (mmt_at now d "-12") Sun
    /\ Original.self_moonrise self = next_rising (mmt_at now d "-0:34") Moon
    /\ Original.self_moonset self = next_setting (mmt_at now d "-0:34") Moon.
Proof.
  intros Hanchor. unfold Original.ephem_init. rewrite Hanchor.
  eexists. split; [reflexivity |]. cbn. repeat split.
Qed.

(** X14.  In [original_version/MMTEphem.py] the horizon is back at [-0:34]
    when the Moon is searched, and both Moon searches are made. *)
Lemma ephem_moon_searches_standard_horizon (dateObs : pydate) self log :
  Original.ephem_init now next_setting next_rising dateObs = Some (self, log) ->
  (forall q, In q log -> q_body q = Moon -> horizon (q_observer q) = "-0:34")
  /\ (exists q, In q log /\ q_body q = Moon /\ q_search q = Rising)
  /\ (exists q, In q log /\ q_body q = Moon /\ q_search q = Setting).
Proof.
  intros Hinit.
  destruct (Original.anchor dateObs) as [d |] eqn:Hanchor.
  - destruct (ephem_init_searches dateObs d Hanchor) as (self' & Heq & _).
    rewrite Heq in Hinit. injection Hinit as _ <-. repeat split.
    + intros q Hq Hmoon. cbn in Hq.
      repeat (destruct Hq as [<- | Hq]; [try discriminate; reflexivity |]).
      contradiction.
    + eexists. split; [do 4 right; left; reflexivity | split; reflexivity].
    + eexists. split; [do 5 right; left; reflexivity | split; reflexivity].
  - unfold Original.ephem_init in Hinit. rewrite Hanchor in Hinit.
    discriminate.
Qed.


(** C1, on [MMTEphem.py].  [MMTEphem("2016/02/09")] searches the rising and
    the setting of the Moon with the horizon of the twilight searches,
    [-12], still in place: the six searches, in order, with their
    horizons. *)
Theorem MMTEphem_moon_searches_at_twilight_horizon :
  map search_horizon
    (snd (Minimal.MMTEphem_init now next_setting next_rising "2016/02/09"))
  = [(Setting, Sun, "-0:34"); (Rising, Sun, "-0:34");
     (Setting, Sun, "-12"); (Rising, Sun, "-12");
     (Rising, Moon, "-12"); (Setting, Moon, "-12")]
  /\ Minimal.self_moonrise
       (fst (Minimal.MMTEphem_init now next_setting next_rising "2016/02/09"))
     = next_rising (set_horizon (Minimal.mmtObserver now "2016/02/09") "-12")
         Moon
  /\ Minimal.self_moonset
       (fst (Minimal.MMTEphem_init now next_setting next_rising "2016/02/09"))
     = next_setting (set_horizon (Minimal.mmtObserver now "2016/02/09") "-12")
         Moon.
Proof.
  unfold Minimal.MMTEphem_init, Minimal.MMTEphem_searches.
  cbn. repeat split.
Qed.

(** C2, on [MMTEphem.py].  [MMTEphem("2016/02/09")] never assigns the date
    of its observer: each of the six searches is made at the instant at
    which the observer was created, and the searches and the six instants
    are those of every other date string. *)
Theorem MMTEphem_searches_ignore_date :
  let night :=
    Minimal.MMTEphem_init now next_setting next_rising "2016/02/09" in
  List.length (snd night) = 6%nat
  /\ Forall (fun q => date (q_observer q) = DateTime now) (snd night)
  /\ Minimal.self_dateObs (fst night) = "2016/02/09 19:00"
  /\ (forall dateObs : string,
        let other :=
          Minimal.MMTEphem_init now next_setting next_rising dateObs in
        snd other = snd night
        /\ Minimal.self_sunset (fst other) = Minimal.self_sunset (fst night)
        /\ Minimal.self_sunrise (fst other) = Minimal.self_sunrise (fst night)
        /\ Minimal.self_eveningTwilight (fst other)
           = Minimal.self_eveningTwilight (fst night)
        /\ Minimal.self_morningTwilight (fst other)
           = Minimal.self_morningTwilight (fst night)
        /\ Minimal.self_moonrise (fst other)
           = Minimal.self_moonrise (fst night)
        /\ Minimal.self_moonset (fst other)
           = Minimal.self_moonset (fst night)).
Proof.
  unfold Minimal.MMTEphem_init, Minimal.MMTEphem_searches.
  cbn. split; [reflexivity |]. split; [repeat constructor |].
  split; [reflexivity |]. intros dateObs. repeat split.
Qed.

End NightSearches.

(** ** The order of the events of a night *)

Lemma crossing_down (f : datetime -> Z) (h a : Z) : forall n b,
  b = a + Z.of_nat (S n) -> h <= f a -> f b < h ->
  exists t, a < t <= b /\ sets_at f h t.
Proof.
  induction n as [| n IH]; intros b Hb Ha Hlow.
  - exists b. split; [lia |]. split; [| exact Hlow].
    replace (b - 1) with a by lia. exact Ha.
  - destruct (Z_lt_dec (f (b - 1)) h) as [Hprev | Hprev].
    + destruct (IH (b - 1) ltac:(lia) Ha Hprev) as (t & Ht & Hset).
      exists t. split; [lia | exact Hset].
    + exists b. split; [lia |]. split; [lia | exact Hlow].
Qed.

Lemma crossing_up (f : datetime -> Z) (h a : Z) : forall n b,
  b = a + Z.of_nat (S n) -> f a < h -> h <= f b ->
  exists t, a < t <= b /\ rises_at f h t.
Proof.
  induction n as [| n IH]; intros b Hb Ha Hhigh.
  - exists b. split; [lia |]. split; [| exact Hhigh].
    replace (b - 1) with a by lia. exact Ha.
  - destruct (Z_lt_dec (f (b - 1)) h) as [Hprev | Hprev].
    + exists b. split; [lia |]. split; [exact Hprev | exact Hhigh].
    + destruct (IH (b - 1) ltac:(lia) Ha ltac:(lia)) as (t & Ht & Hrise).
      exists t. split; [lia | exact Hrise].
Qed.

Lemma sets_between (f : datetime -> Z) (h a b : Z) :
  a < b -> h <= f a -> f b < h -> exists t, a < t <= b /\ sets_at f h t.
Proof.
  intros Hab. apply (crossing_down f h a (Z.to_nat (b - a - 1))). lia.
Qed.

Lemma rises_between (f : datetime -> Z) (h a b : Z) :
  a < b -> f a < h -> h <= f b -> exists t, a < t <= b /\ rises_at f h t.
Proof.
  intros Hab. apply (crossing_up f h a (Z.to_nat (b - a - 1))). lia.
Qed.

Lemma first_after_least (P : datetime -> Prop) (a t v : datetime) :
  first_after P a t -> a < v -> P v -> t <= v.
Proof.
  intros (_ & _ & Hfirst) Hav Hv.
  destruct (Z_lt_dec v t) as [Hlt | Hge]; [| lia].
  exfalso. apply (Hfirst v); [lia | exact Hv].
Qed.

Section NightOrder.

Variable now : datetime.
Variables next_setting next_rising : Observer -> Body -> datetime.
Variable instant : pydate -> datetime.
Variable angle : string -> Z.
Variable altitude : datetime -> Z.

Lemma mmt_at_site d h : at_mmt (mmt_at now d h).
Proof. repeat split. Qed.

(** The four searches of the Sun from the instant [a], under the contract:
    sunset, end of the evening twilight, start of the morning twilight,
    sunrise. *)
Lemma sun_events (d : pydate) :
  first_crossing_contract next_setting next_rising instant angle altitude ->
  ordinary_night altitude (angle "-0:34") (angle "-12") (instant d) ->
  let sunset := next_setting (mmt_at now d "-0:34") Sun in
  let sunrise := next_rising (mmt_at now d "-0:34") Sun in
  let eveningTwilight := next_setting (mmt_at now d "-12") Sun in
  let morningTwilight := next_rising (mmt_at now d "-12") Sun in
  sunset < sunrise < sunset + day
  /\ sunset < eveningTwilight
  /\ morningTwilight < sunrise.
Proof.
  intros [Hsetting Hrising] (Hdeep & Hcont & Hnoon & Hnight & Hday).
  intros sunset sunrise eveningTwilight morningTwilight.
  set (a := instant d) in *.
  set (std := angle "-0:34") in *. set (twi := angle "-12") in *.
  destruct Hnight as (u & Hau & Hu & Hnorise).
  (* the sunset *)
  assert (Hs : first_after (sets_at altitude std) a sunset).
  { apply (Hsetting (mmt_at now d "-0:34") (mmt_at_site _ _)).
    destruct (sets_between altitude std a u) as (t & Ht & Hset);
      [lia | lia | lia |].
    exists t. split; [cbn; lia | exact Hset]. }
  (* the end of the evening twilight *)
  assert (He : first_after (sets_at altitude twi) a eveningTwilight).
  { apply (Hsetting (mmt_at now d "-12") (mmt_at_site _ _)).
    destruct (sets_between altitude twi a u) as (t & Ht & Hset);
      [lia | lia | lia |].
    exists t. split; [cbn; lia | exact Hset]. }
  (* the sunrise *)
  assert (Hr : first_after (rises_at altitude std) a sunrise).
  { apply (Hrising (mmt_at now d "-0:34") (mmt_at_site _ _)).
    destruct (Hday u) as (w & Hw & Hup).
    destruct (rises_between altitude std u w) as (t & Ht & Hrise);
      [| lia | lia |].
    - destruct (Z.eq_dec u w) as [-> | Hne]; lia.
    - exists t. split; [cbn; lia | exact Hrise]. }
  assert (Hur : u < sunrise).
  { destruct (Z_lt_dec u sunrise) as [Hlt | Hge]; [exact Hlt |].
    exfalso. apply (Hnorise sunrise); [destruct Hr; lia |].
    destruct Hr as (_ & Hrise & _). exact Hrise. }
  (* the start of the morning twilight *)
  assert (Hm : first_after (rises_at altitude twi) a morningTwilight).
  { apply (Hrising (mmt_at now d "-12") (mmt_at_site _ _)).
    destruct Hr as (_ & [_ Hup] & _).
    destruct (rises_between altitude twi u sunrise) as (t & Ht & Hrise);
      [lia | lia | lia |].
    exists t. split; [cbn; lia | exact Hrise]. }
  assert (Hsu : sunset <= u).
  { destruct (sets_between altitude std a u) as (t & Ht & Hset);
      [lia | lia | lia |].
    pose proof (first_after_least _ _ _ t Hs ltac:(lia) Hset). lia. }
  repeat split.
  - lia.
  - destruct Hs as (Has & [_ Hdown] & _).
    destruct (Hday sunset) as (w & Hw & Hup).
    destruct (rises_between altitude std sunset w) as (t & Ht & Hrise);
      [| lia | lia |].
    + destruct (Z.eq_dec sunset w) as [Heq | Hne]; [| lia].
      rewrite <- Heq in Hup. lia.
    + pose proof (first_after_least _ _ _ t Hr ltac:(lia) Hrise). lia.
  - destruct He as (Hae & [Heprev Helow] & _).
    destruct (sets_between altitude std a eveningTwilight)
      as (t & Ht & Hset); [lia | lia | lia |].
    pose proof (first_after_least _ _ _ t Hs ltac:(lia) Hset) as Hle.
    destruct (Z.eq_dec sunset eveningTwilight) as [Heq | Hne]; [| lia].
    exfalso. destruct Hs as (_ & [Hsprev _] & _).
    rewrite Heq in Hsprev. specialize (Hcont eveningTwilight). lia.
  - destruct Hr as (Har & [Hrprev Hrup] & _).
    destruct (rises_between altitude twi u sunrise) as (t & Ht & Hrise);
      [lia | lia | lia |].
    pose proof (first_after_least _ _ _ t Hm ltac:(lia) Hrise) as Hle.
    destruct (Z.eq_dec morningTwilight sunrise) as [Heq | Hne]; [| lia].
    exfalso. destruct Hm as (_ & [Hmprev _] & _).
    rewrite Heq in Hmprev. specialize (Hcont sunrise). lia.
Qed.

(** C3, as the code has it.  Under the contract of the searches, for the
    night that follows the [19:00] of a date, the object built by [ephem]
    has [sunset < sunrise < sunset + 24 h], the evening twilight after the
    sunset and the morning twilight before the sunrise. *)
Theorem ephem_night_order (s d : string) :
  split_first s = Some d ->
  first_crossing_contract next_setting next_rising instant angle altitude ->
  ordinary_night altitude (angle "-0:34") (angle "-12")
    (instant (DateStr (d ++ " 19:00")%string)) ->
  exists self log,
    Original.ephem_init now next_setting next_rising (DateStr s)
    = Some (self, log)
    /\ Original.self_sunset self < Original.self_sunrise self
       < Original.self_sunset self + day
    /\ Original.self_sunset self < Original.self_eveningTwilight self
    /\ Original.self_morningTwilight self < Original.self_sunrise self.
Proof.
  intros Hsplit Hcontract Hnight.
  destruct (ephem_init_searches now next_setting next_rising (DateStr s)
              (DateStr (d ++ " 19:00")%string))
    as (self & Heq & _ & Hset & Hrise & Heve & Hmorn & _).
  { cbn. now rewrite Hsplit. }
  exists self. eexists. split; [exact Heq |].
  rewrite Hset, Hrise, Heve, Hmorn.
  exact (sun_events _ Hcontract Hnight).
Qed.

End NightOrder.

(** *** The sample provider meets the contract *)

Lemma sample_contract :
  first_crossing_contract sample_next_setting sample_next_rising
    sample_instant sample_angle sample_altitude.
Proof.
  split; intros o _ _;
    unfold sample_next_setting, sample_next_rising, sample_instant,
      sample_angle;
    destruct (String.eqb (horizon o) "-12"); cbn [Z.eqb Pos.eqb];
    (split; [lia |]); (split; [sample_cases |]);
    intros u Hu [Hprev Hcur]; sample_cases.
Qed.

Lemma sample_night (d : pydate) :
  ordinary_night sample_altitude (sample_angle "-0:34") (sample_angle "-12")
    (sample_instant d).
Proof.
  unfold ordinary_night, sample_instant.
  change (sample_angle "-0:34") with (-34).
  change (sample_angle "-12") with (-720).
  split; [lia |]. split; [intros t; sample_cases |].
  split; [sample_cases |]. split.
  - exists 2000. split; [lia |]. split; [sample_cases |].
    intros v Hv [Hprev Hcur]. sample_cases.
  - intros t. destruct (Z_lt_dec t 0) as [Hneg | Hpos].
    + exists t. split; [unfold day; lia | sample_cases].
    + exists (Z.max t 4000). split; [unfold day; lia | sample_cases].
Qed.

Lemma ephem_night_order_witness :
  split_first "2016/02/09" = Some "2016/02/09"
  /\ exists self log,
       Original.ephem_init 0 sample_next_setting sample_next_rising
         (DateStr "2016/02/09")
       = Some (self, log)
       /\ Original.self_sunset self < Original.self_sunrise self
          < Original.self_sunset self + day
       /\ Original.self_sunset self < Original.self_eveningTwilight self
       /\ Original.self_morningTwilight self < Original.self_sunrise self.
Proof.
  split; [reflexivity |].
  apply (ephem_night_order 0 sample_next_setting sample_next_rising
           sample_instant sample_angle sample_altitude
           "2016/02/09" "2016/02/09").
  - reflexivity.
  - exact sample_contract.
  - exact (sample_night _).
Defined.

(** C3, as the specification words it, fails: with the sample provider,
    which meets the contract, the night of 2016/02/09 has its sunset at
    1035, the end of its evening twilight at 1721, the start of its morning
    twilight at 2280 and its sunrise at 2966, so the evening twilight is
    not before the sunset and the morning twilight is not after the
    sunrise. *)
Lemma claimed_night_order_fails :
  first_crossing_contract sample_next_setting sample_next_rising
    sample_instant sample_angle sample_altitude
  /\ ordinary_night sample_altitude (sample_angle "-0:34")
       (sample_angle "-12") (sample_instant (DateStr "2016/02/09 19:00"))
  /\ exists self log,
       Original.ephem_init 0 sample_next_setting sample_next_rising
         (DateStr "2016/02/09")
       = Some (self, log)
       /\ ~ (Original.self_sunset self < Original.self_sunrise self
             < Original.self_sunset self + day
             /\ Original.self_eveningTwilight self < Original.self_sunset self
             /\ Original.self_morningTwilight self
                > Original.self_sunrise self).
Proof.
  split; [exact sample_contract |]. split; [exact (sample_night _) |].
  eexists. eexists. split; [reflexivity |].
  cbn. lia.
Qed.

(** ** The airmass over the reals

    [alt2airmass] is a computation on floats.  Over the reals it is the
    secant of the zenith angle; at the horizon the exact cosine is zero,
    and the large finite value that the code returns there exists only
    because [math.pi] is a rounded value.  The lemmas below are the part
    of the behaviour that does not depend on rounding. *)

Section Airmass.

Local Open Scope R_scope.

Lemma zenith_angle_radians (altitude : R) :
  (90.0 - altitude) / 180.0 * PI = PI / 2 - altitude * (PI / 180).
Proof. lra. Qed.

Lemma alt2airmass_secant (altitude : R) :
  Original.alt2airmass altitude = 1 / cos ((90 - altitude) * (PI / 180)).
Proof.
  unfold Original.alt2airmass.
  replace ((90.0 - altitude) / 180.0 * PI)
    with ((90 - altitude) * (PI / 180)) by lra.
  replace 1.0 with 1 by lra. reflexivity.
Qed.

Lemma alt2airmass_zenith : Original.alt2airmass 90 = 1.
Proof.
  unfold Original.alt2airmass.
  replace ((90.0 - 90) / 180.0 * PI) with 0 by lra.
  rewrite cos_0. lra.
Qed.

Lemma alt2airmass_horizon_exact_cosine :
  cos ((90.0 - 0) / 180.0 * PI) = 0.
Proof.
  replace ((90.0 - 0) / 180.0 * PI) with (PI / 2) by lra.
  exact cos_PI2.
Qed.

Lemma alt2airmass_below_horizon (altitude : R) :
  -180 < altitude < 0 -> Original.alt2airmass altitude < 0.
Proof.
  intros [Hlo Hhi]. unfold Original.alt2airmass.
  pose proof PI_RGT_0 as Hpi.
  assert (Hcos : cos ((90.0 - altitude) / 180.0 * PI) < 0).
  { rewrite zenith_angle_radians. apply cos_lt_0; nra. }
  apply Rinv_neg in Hcos. lra.
Qed.

Lemma alt2airmass_above_horizon (altitude : R) :
  0 < altitude < 180 ->
  / (altitude * (PI / 180)) < Original.alt2airmass altitude.
Proof.
  intros [Hlo Hhi]. unfold Original.alt2airmass.
  pose proof PI_RGT_0 as Hpi.
  rewrite zenith_angle_radians, cos_shift.
  assert (Hx : 0 < altitude * (PI / 180)) by nra.
  assert (Hsin : 0 < sin (altitude * (PI / 180)))
    by (apply sin_gt_0; nra).
  pose proof (sin_lt_x _ Hx) as Hlt.
  apply (Rinv_0_lt_contravar _ _ Hsin) in Hlt. lra.
Qed.

End Airmass.

(** * Further properties of the code *)

(** ** The end of the grid *)

Lemma timeGrid_overshoot sunset sunrise :
  sunset < sunrise ->
  last (timeGrid sunset sunrise) 0 - sunrise = (sunset - sunrise) mod timedelta.
Proof.
  intros Hnight. pose proof timedelta_pos as Hp.
  rewrite timeGrid_last. unfold turns.
  rewrite Z2Nat.id by (apply Z.div_pos; lia).
  rewrite ceil_div_shift by exact Hp. unfold ceil_div.
  replace (- (sunrise - sunset)) with (sunset - sunrise) by ring.
  rewrite (Z.mod_eq (sunset - sunrise) timedelta) by lia. ring.
Qed.

Lemma timeGrid_In sunset sunrise x :
  In x (timeGrid sunset sunrise) ->
  sunset <= x <= last (timeGrid sunset sunrise) 0.
Proof.
  rewrite timeGrid_last, timeGrid_as_map. intros Hin.
  apply in_map_iff in Hin. destruct Hin as (i & <- & Hi).
  apply in_seq in Hi. pose proof timedelta_pos. nia.
Qed.

(** X1.  The last instant of a curve lies after the sunrise by the
    remainder of [sunset - sunrise] modulo five minutes: by less than five
    minutes, and by nothing when the night is a whole number of steps.
    Every instant of the curve is between the sunset and five minutes after
    the sunrise. *)
Theorem airmassCurve_overshoot
  (compute : FixedBody -> Observer -> Computed)
  (night : Original.ephem) (ra dec : pyangle) :
  Original.self_sunset night < Original.self_sunrise night ->
  let sunset := Original.self_sunset night in
  let sunrise := Original.self_sunrise night in
  let t := fst (fst (Original.airmassCurve compute night ra dec)) in
  last t 0 - sunrise = (sunset - sunrise) mod timedelta_minutes 5
  /\ 0 <= last t 0 - sunrise < timedelta_minutes 5
  /\ ((sunrise - sunset) mod timedelta_minutes 5 = 0 -> last t 0 = sunrise)
  /\ (forall x, In x t -> sunset <= x < sunrise + timedelta_minutes 5).
Proof.
  intros Hnight sunset sunrise t. pose proof timedelta_pos as Hp.
  assert (Ht : t = timeGrid sunset sunrise) by apply airmassCurve_times.
  change (timedelta_minutes 5) with timedelta.
  pose proof (timeGrid_overshoot sunset sunrise Hnight) as Hover.
  pose proof (Z.mod_pos_bound (sunset - sunrise) timedelta Hp) as Hbound.
  rewrite Ht. repeat split; try lia.
  - intros Hwhole.
    assert ((sunset - sunrise) mod timedelta = 0); [| lia].
    replace (sunset - sunrise) with (- (sunrise - sunset)) by ring.
    apply Z.mod_opp_l_z; [lia | exact Hwhole].
  - apply timeGrid_In in H. lia.
  - apply timeGrid_In in H. lia.
Qed.

Lemma airmassCurve_overshoot_witness :
  let t :=
    fst (fst (Original.airmassCurve compute_zero short_night
                (AngleStr "8:00:00") (AngleStr "30:00:00"))) in
  last t 0 - timedelta_minutes 12
  = (0 - timedelta_minutes 12) mod timedelta_minutes 5
  /\ 0 <= last t 0 - timedelta_minutes 12 < timedelta_minutes 5
  /\ ((timedelta_minutes 12 - 0) mod timedelta_minutes 5 = 0 ->
      last t 0 = timedelta_minutes 12)
  /\ (forall x, In x t -> 0 <= x < timedelta_minutes 12 + timedelta_minutes 5).
Proof.
  apply (airmassCurve_overshoot compute_zero short_night).
  reflexivity.
Defined.

(** ** The samples of the curves *)

Section Curves.

Variable compute : FixedBody -> Observer -> Computed.

Lemma assign_assign mmt d1 d2 :
  Original.assign_mmtObserver_date (Original.assign_mmtObserver_date mmt d1) d2
  = Original.assign_mmtObserver_date mmt d2.
Proof. reflexivity. Qed.

Lemma star_at_assign mmt d ra dec t :
  star_at compute (Original.assign_mmtObserver_date mmt d) ra dec t
  = star_at compute mmt ra dec t.
Proof. reflexivity. Qed.

Lemma after_loop_cons mmt time rest :
  after_loop (Original.assign_mmtObserver_date mmt (DateTime time)) rest
  = after_loop mmt (time :: rest).
Proof. destruct rest as [| time' rest]; reflexivity. Qed.

Lemma airmass_loop_samples ra dec : forall timeArray mmt,
  Original.airmass_loop compute mmt ra dec timeArray
  = (map (airmass_at compute mmt ra dec) timeArray, after_loop mmt timeArray).
Proof.
  induction timeArray as [| time rest IH]; intros mmt; [reflexivity |].
  cbn [Original.airmass_loop]. unfold Original.mmtAltAz.
  rewrite IH, after_loop_cons. reflexivity.
Qed.

Lemma parAngle_loop_samples ra dec : forall timeArray mmt,
  Original.parAngle_loop compute mmt ra dec timeArray
  = (map (parAngle_at compute mmt ra dec) timeArray, after_loop mmt timeArray).
Proof.
  induction timeArray as [| time rest IH]; intros mmt; [reflexivity |].
  cbn [Original.parAngle_loop]. unfold Original.mmtParAngle.
  rewrite IH, after_loop_cons. reflexivity.
Qed.

Lemma after_loop_timeGrid mmt sunset sunrise :
  after_loop mmt (timeGrid sunset sunrise)
  = Original.assign_mmtObserver_date mmt
      (DateTime (last (timeGrid sunset sunrise) 0)).
Proof.
  destruct (timeGrid sunset sunrise) as [| t rest] eqn:Hgrid; [| reflexivity].
  rewrite timeGrid_closed in Hgrid. discriminate.
Qed.

(** X2.  Each sample of a curve is the transform at the instant of the sample:
    the airmass (or the parallactic angle) that [compute] gives for the
    target when the observer of the night has its date at that instant and
    its other fields as they were on entry. *)
Theorem curves_sample_by_sample
  (mmt : Original.ephem) (ra dec : pyangle) :
  let grid :=
    timeGrid (Original.self_sunset mmt) (Original.self_sunrise mmt) in
  fst (Original.airmassCurve compute mmt ra dec)
  = (grid, map (airmass_at compute mmt ra dec) grid)
  /\ fst (Original.parAngleCurve compute mmt ra dec)
     = (grid, map (parAngle_at compute mmt ra dec) grid).
Proof.
  intros grid. unfold Original.airmassCurve, Original.parAngleCurve.
  rewrite airmass_loop_samples, parAngle_loop_samples. split; reflexivity.
Qed.

(** X3.  A curve leaves the date of the shared observer at the last instant of
    its grid, and nothing else of the night changed. *)
Theorem curves_leave_last_instant
  (mmt : Original.ephem) (ra dec : pyangle) :
  let airmass := Original.airmassCurve compute mmt ra dec in
  let parAngle := Original.parAngleCurve compute mmt ra dec in
  only_date_assigned mmt (snd airmass) (DateTime (last (fst (fst airmass)) 0))
  /\ only_date_assigned mmt (snd parAngle)
       (DateTime (last (fst (fst parAngle)) 0)).
Proof.
  cbv zeta. unfold Original.airmassCurve, Original.parAngleCurve.
  rewrite airmass_loop_samples, parAngle_loop_samples. cbn [fst snd].
  rewrite after_loop_timeGrid.
  destruct mmt as [d s1 s2 e m r1 r2 [p h la lo el da]].
  unfold only_date_assigned. cbn. repeat split.
Qed.

(** X4.  The date that the shared observer has on entry does not matter to a
    curve: neither to its samples nor to the state it leaves. *)
Theorem curves_ignore_entry_date
  (mmt : Original.ephem) (ra dec : pyangle) (d : pydate) :
  Original.airmassCurve compute (Original.assign_mmtObserver_date mmt d)
    ra dec
  = Original.airmassCurve compute mmt ra dec
  /\ Original.parAngleCurve compute (Original.assign_mmtObserver_date mmt d)
       ra dec
     = Original.parAngleCurve compute mmt ra dec.
Proof.
  unfold Original.airmassCurve, Original.parAngleCurve.
  rewrite !airmass_loop_samples, !parAngle_loop_samples.
  change (Original.self_sunset (Original.assign_mmtObserver_date mmt d))
    with (Original.self_sunset mmt).
  change (Original.self_sunrise (Original.assign_mmtObserver_date mmt d))
    with (Original.self_sunrise mmt).
  rewrite !after_loop_timeGrid, !assign_assign.
  split; reflexivity.
Qed.

End Curves.

(** ** The fields of an [ObjEphem] *)

Section ObjEphemFields.

Variable compute : FixedBody -> Observer -> Computed.

Lemma observability_loop_from (f : datetime -> R) : forall timeArray before,
  Original.observability_loop (before ++ timeArray)
    (map f (before ++ timeArray))
    (seq (List.length before) (List.length timeArray))
  = Some (map (fun t => Original.targetObservability t (f t)) timeArray).
Proof.
  induction timeArray as [| time rest IH]; intros before; [reflexivity |].
  cbn [List.length seq Original.observability_loop].
  rewrite nth_error_map.
  rewrite nth_error_app2, Nat.sub_diag by lia. cbn [nth_error option_map].
  specialize (IH (before ++ [time])).
  rewrite <- app_assoc, length_app in IH. cbn [List.length app] in IH.
  rewrite Nat.add_1_r in IH. rewrite IH. reflexivity.
Qed.

Lemma observability_loop_map (f : datetime -> R) timeArray :
  Original.observability_loop timeArray (map f timeArray)
    (seq 0 (List.length (map f timeArray)))
  = Some (map (fun t => Original.targetObservability t (f t)) timeArray).
Proof.
  rewrite length_map. exact (observability_loop_from f timeArray []).
Qed.

Lemma airmassCurve_result mmt ra dec :
  Original.airmassCurve compute mmt ra dec
  = (timeGrid (Original.self_sunset mmt) (Original.self_sunrise mmt),
     map (airmass_at compute mmt ra dec)
       (timeGrid (Original.self_sunset mmt) (Original.self_sunrise mmt)),
     Original.assign_mmtObserver_date mmt
       (DateTime
          (last (timeGrid (Original.self_sunset mmt)
                   (Original.self_sunrise mmt)) 0))).
Proof.
  unfold Original.airmassCurve.
  now rewrite airmass_loop_samples, after_loop_timeGrid.
Qed.

Lemma parAngleCurve_result mmt ra dec :
  Original.parAngleCurve compute mmt ra dec
  = (timeGrid (Original.self_sunset mmt) (Original.self_sunrise mmt),
     map (parAngle_at compute mmt ra dec)
       (timeGrid (Original.self_sunset mmt) (Original.self_sunrise mmt)),
     Original.assign_mmtObserver_date mmt
       (DateTime
          (last (timeGrid (Original.self_sunset mmt)
                   (Original.self_sunrise mmt)) 0))).
Proof.
  unfold Original.parAngleCurve.
  now rewrite parAngle_loop_samples, after_loop_timeGrid.
Qed.

Lemma ObjEphem_init_value
  (ra dec : pyangle) (dateObs : pydate) (mmtEphem : Original.ephem) :
  Original.ObjEphem_init compute ra dec dateObs mmtEphem
  = Some
      (Original.mkObjEphem (Original.self_dateObs mmtEphem)
         (map (fun t =>
                 Original.targetObservability t
                   (airmass_at compute mmtEphem ra dec t))
            (timeGrid (Original.self_sunset mmtEphem)
               (Original.self_sunrise mmtEphem)))
         ra dec
         (timeGrid (Original.self_sunset mmtEphem)
            (Original.self_sunrise mmtEphem))
         (map (airmass_at compute mmtEphem ra dec)
            (timeGrid (Original.self_sunset mmtEphem)
               (Original.self_sunrise mmtEphem)))
         (map (parAngle_at compute mmtEphem ra dec)
            (timeGrid (Original.self_sunset mmtEphem)
               (Original.self_sunrise mmtEphem))),
       Original.assign_mmtObserver_date mmtEphem
         (DateTime
            (last (timeGrid (Original.self_sunset mmtEphem)
                     (Original.self_sunrise mmtEphem)) 0))).
Proof.
  unfold Original.ObjEphem_init.
  rewrite airmassCurve_result, parAngleCurve_result.
  cbn [Original.self_sunset Original.self_sunrise
       Original.assign_mmtObserver_date].
  change (airmass_at compute
            (Original.assign_mmtObserver_date mmtEphem
               (Original.self_dateObs mmtEphem)) ra dec)
    with (airmass_at compute mmtEphem ra dec).
  rewrite observability_loop_map. reflexivity.
Qed.

(** X5.  [ObjEphem(ra, dec, dateObs, mmtEphem)] field by field: the instants are
    the grid of the night, the airmasses, parallactic angles and flags are
    those of the target at each instant, the date is the one of [mmtEphem],
    and [mmtEphem] comes back with the date of its observer at the last
    instant of the grid.  The argument [dateObs] and the date that the
    observer had before the call have no part in the result. *)
Theorem ObjEphem_fields
  (ra dec : pyangle) (dateObs : pydate) (mmtEphem : Original.ephem) :
  let grid :=
    timeGrid (Original.self_sunset mmtEphem)
      (Original.self_sunrise mmtEphem) in
  Original.ObjEphem_init compute ra dec dateObs mmtEphem
  = Some
      (Original.mkObjEphem (Original.self_dateObs mmtEphem)
         (map (fun t =>
                 Original.targetObservability t
                   (airmass_at compute mmtEphem ra dec t)) grid)
         ra dec grid
         (map (airmass_at compute mmtEphem ra dec) grid)
         (map (parAngle_at compute mmtEphem ra dec) grid),
       Original.assign_mmtObserver_date mmtEphem
         (DateTime (last grid 0)))
  /\ (forall (dateObs' d : pydate),
        Original.ObjEphem_init compute ra dec dateObs'
          (Original.assign_mmtObserver_date mmtEphem d)
        = Original.ObjEphem_init compute ra dec dateObs mmtEphem).
Proof.
  intros grid. split; [apply ObjEphem_init_value |].
  intros dateObs' d. rewrite !ObjEphem_init_value. reflexivity.
Qed.

End ObjEphemFields.

(** X6.  The sample of index [i] of an [ObjEphem]: its airmass and its
    parallactic angle come from one evaluation of the target, with the
    observer at the instant [time[i]], and its flag is 1 exactly when that
    airmass is strictly between 1.0 and 1.8, and 0 otherwise. *)
Theorem ObjEphem_sample
  (compute : FixedBody -> Observer -> Computed)
  (ra dec : pyangle) (dateObs : pydate) (mmtEphem : Original.ephem) :
  exists obj mmtEphem',
    Original.ObjEphem_init compute ra dec dateObs mmtEphem
    = Some (obj, mmtEphem')
    /\ forall i t, nth_error (Original.obj_time obj) i = Some t ->
         let star := star_at compute mmtEphem ra dec t in
         let airmass := Original.alt2airmass (alt star * 180.0 / PI)%R in
         nth_error (Original.obj_airmass obj) i = Some airmass
         /\ nth_error (Original.obj_parAngle obj) i
            = Some (parallactic_angle star)
         /\ nth_error (Original.obj_observable obj) i
            = Some (if Rgt_dec airmass 1.0
                    then if Rlt_dec airmass 1.8 then 1 else 0
                    else 0)
         /\ (nth_error (Original.obj_observable obj) i = Some 1
             <-> (1.0 < airmass < 1.8)%R).
Proof.
  pose proof (ObjEphem_init_value compute ra dec dateObs mmtEphem) as Hinit.
  eexists. eexists. split; [exact Hinit |].
  cbn [Original.obj_time Original.obj_airmass Original.obj_parAngle
       Original.obj_observable].
  intros i t Ht. rewrite !nth_error_map, Ht. cbn [option_map].
  unfold airmass_at, parAngle_at, Original.targetObservability.
  set (airmass :=
         Original.alt2airmass
           (alt (star_at compute mmtEphem ra dec t) * 180.0 / PI)%R).
  repeat split.
  - destruct (Rgt_dec airmass 1.0); [| discriminate].
    destruct (Rlt_dec airmass 1.8); [| discriminate]. lra.
  - destruct (Rgt_dec airmass 1.0); [| discriminate].
    destruct (Rlt_dec airmass 1.8); [| discriminate]. lra.
  - intros [Hlow Hhigh].
    destruct (Rgt_dec airmass 1.0); [| lra].
    destruct (Rlt_dec airmass 1.8); [reflexivity | lra].
Qed.

(** ** Airmass, altitude and the flag *)

Section AirmassAltitude.

Local Open Scope R_scope.

Lemma alt2airmass_cosecant (altitude : R) :
  Original.alt2airmass altitude = / sin (altitude * (PI / 180)).
Proof.
  unfold Original.alt2airmass.
  rewrite zenith_angle_radians, cos_shift. lra.
Qed.

Lemma sin_degrees_bounds (altitude : R) :
  0 < altitude < 90 -> 0 < sin (altitude * (PI / 180)) < 1.
Proof.
  intros [Hlo Hhi]. pose proof PI_RGT_0 as Hpi. split.
  - apply sin_gt_0; nra.
  - rewrite <- sin_PI2. apply sin_increasing_1; nra.
Qed.

Lemma flag_is_one (time : Z) (airmass : R) :
  Original.targetObservability time airmass = 1%Z <-> 1 < airmass < 1.8.
Proof.
  unfold Original.targetObservability.
  destruct (Rgt_dec airmass 1.0) as [Hgt | Hle].
  - destruct (Rlt_dec airmass 1.8) as [Hlt | Hge].
    + split; [lra | reflexivity].
    + split; [discriminate | lra].
  - split; [discriminate | lra].
Qed.

(** X7.  Higher is thinner: between the horizon and the zenith the airmass
    decreases as the altitude grows, and it is never below 1. *)
Theorem alt2airmass_decreasing (a b : R) :
  0 < a -> a < b -> b <= 90 ->
  1 <= Original.alt2airmass b < Original.alt2airmass a.
Proof.
  intros Ha Hab Hb. pose proof PI_RGT_0 as Hpi.
  rewrite !alt2airmass_cosecant.
  assert (Hsa : 0 < sin (a * (PI / 180))) by (apply sin_gt_0; nra).
  assert (Hsb : 0 < sin (b * (PI / 180))) by (apply sin_gt_0; nra).
  assert (Hinc : sin (a * (PI / 180)) < sin (b * (PI / 180)))
    by (apply sin_increasing_1; nra).
  pose proof (SIN_bound (b * (PI / 180))) as [_ Hone].
  split.
  - rewrite <- Rinv_1 at 1. apply Rinv_le_contravar; assumption.
  - apply Rinv_0_lt_contravar; assumption.
Qed.

Lemma alt2airmass_decreasing_witness :
  1 <= Original.alt2airmass 60 < Original.alt2airmass 30.
Proof.
  apply (alt2airmass_decreasing 30 60); lra.
Defined.

(** X8.  In terms of the altitude: a target between the nadir-side horizon and
    the zenith is flagged observable exactly when it stands strictly
    between the horizon and the zenith with the sine of its altitude above
    5/9 (an altitude of about 33.7 degrees); a target at the zenith
    itself, where the airmass is 1, is not flagged. *)
Theorem observable_altitudes (time : Z) (altitude : R) :
  -90 <= altitude <= 90 -> altitude <> 0 ->
  (Original.targetObservability time (Original.alt2airmass altitude) = 1%Z
   <-> 0 < altitude < 90 /\ 5 / 9 < sin (altitude * (PI / 180))).
Proof.
  intros [Hlo Hhi] Hnz. rewrite flag_is_one.
  destruct (Rlt_dec altitude 0) as [Hneg | Hpos].
  - pose proof (alt2airmass_below_horizon altitude ltac:(lra)). lra.
  - destruct (Req_dec altitude 90) as [-> | Hne].
    + rewrite alt2airmass_zenith. lra.
    + pose proof (sin_degrees_bounds altitude ltac:(lra)) as [Hs0 Hs1].
      rewrite alt2airmass_cosecant.
      set (s := sin (altitude * (PI / 180))) in *.
      split.
      * intros [_ Hcut]. split; [lra |].
        apply (Rmult_lt_compat_l s) in Hcut; [| exact Hs0].
        rewrite Rinv_r in Hcut by lra. lra.
      * intros [_ Hcut]. split.
        -- rewrite <- Rinv_1 at 1. apply Rinv_0_lt_contravar; lra.
        -- apply (Rmult_lt_reg_l s); [exact Hs0 |].
           rewrite Rinv_r by lra. lra.
Qed.

Lemma observable_altitudes_witness :
  Original.targetObservability 0 (Original.alt2airmass 45) = 1%Z
  <-> 0 < 45 < 90 /\ 5 / 9 < sin (45 * (PI / 180)).
Proof.
  apply (observable_altitudes 0 45); lra.
Defined.

End AirmassAltitude.

(** ** The age of the Moon *)

Section MoonAge.

Variables next_new_moon previous_new_moon : Original.pytime -> datetime.

Lemma days_of_microseconds (td : Z) :
  (Original.total_seconds td / 3600 / 24 = IZR td / day_R)%R.
Proof.
  unfold Original.total_seconds, day_R.
  change (IZR day) with 86400000000%R. lra.
Qed.

(** X9.  For an instant between the previous and the next new moon, [moonAge]
    is the time to the nearer of the two, in days: it is never negative
    and never more than half the time between the two new moons.  On a
    date string it raises. *)
Theorem moonAge_nearest_new_moon (time : Original.pytime) (t : datetime) :
  time = Original.PyDatetime t \/ time = Original.PyEphemDate t ->
  previous_new_moon time <= t <= next_new_moon time ->
  let d1 := next_new_moon time in
  let d2 := previous_new_moon time in
  Original.moonAge next_new_moon previous_new_moon time
  = Some (IZR (Z.min (d1 - t) (t - d2)) / day_R)%R
  /\ (0 <= IZR (Z.min (d1 - t) (t - d2)) / day_R
      <= IZR (d1 - d2) / 2 / day_R)%R
  /\ (forall s,
        Original.moonAge next_new_moon previous_new_moon (Original.PyString s)
        = None).
Proof.
  intros Htime [Hprev Hnext] d1 d2.
  assert (Hday : (0 < day_R)%R) by (unfold day_R; apply IZR_lt; reflexivity).
  split; [| split; [| reflexivity]].
  - unfold Original.moonAge. fold d1 d2.
    assert (Hconv :
      match time with
      | Original.PyDatetime t0 | Original.PyEphemDate t0 => Some t0
      | Original.PyString _ => None
      end = Some t) by (destruct Htime as [-> | ->]; reflexivity).
    rewrite Hconv. rewrite !days_of_microseconds.
    destruct (Z.ltb_spec (d1 - t) (t - d2)) as [Hlt | Hge].
    + rewrite Z.min_l by lia. rewrite Rabs_right; [reflexivity |].
      apply Rle_ge. apply Rmult_le_pos; [apply IZR_le; lia |].
      left. now apply Rinv_0_lt_compat.
    + rewrite Z.min_r by lia. reflexivity.
  - assert (Hmin0 : (0 <= Z.min (d1 - t) (t - d2))%Z) by lia.
    assert (Hmin2 : (2 * Z.min (d1 - t) (t - d2) <= d1 - d2)%Z) by lia.
    apply IZR_le in Hmin0, Hmin2. rewrite mult_IZR in Hmin2.
    pose proof (Rinv_0_lt_compat _ Hday) as Hinv.
    unfold Rdiv. split.
    + apply Rmult_le_pos; [exact Hmin0 | lra].
    + apply Rmult_le_compat_r; lra.
Qed.

End MoonAge.

Lemma moonAge_nearest_new_moon_witness :
  Original.moonAge sample_next_new_moon sample_previous_new_moon
    (Original.PyDatetime (20 * day))
  = Some (IZR (Z.min (59 * (day / 2) - 20 * day) (20 * day - 0)) / day_R)%R
  /\ (0 <= IZR (Z.min (59 * (day / 2) - 20 * day) (20 * day - 0)) / day_R
      <= IZR (59 * (day / 2) - 0) / 2 / day_R)%R
  /\ (forall s,
        Original.moonAge sample_next_new_moon sample_previous_new_moon
          (Original.PyString s)
        = None).
Proof.
  apply (moonAge_nearest_new_moon sample_next_new_moon
           sample_previous_new_moon (Original.PyDatetime (20 * day))
           (20 * day)).
  - left. reflexivity.
  - split; apply Z.leb_le; reflexivity.
Defined.

(** ** The date given to [ephem] *)










Section EphemDate.

Variable now : datetime.
Variables next_setting next_rising : Observer -> Body -> datetime.




(** X12.  The observer that a constructor keeps in its object.  [ephem] leaves
    it at the MMT, with no pressure, the standard horizon [-0:34] and the
    date of the searches; [MMTEphem] leaves it at the MMT with the twilight
    horizon [-12] and the date at which the observer was created. *)
Theorem saved_observers (dateObs d : pydate) (dateObs' : string) :
  Original.anchor dateObs = Some d ->
  (exists self log,
     Original.ephem_init now next_setting next_rising dateObs
     = Some (self, log)
     /\ at_mmt (Original.self_mmtObserver self)
     /\ horizon (Original.self_mmtObserver self) = "-0:34"
     /\ date (Original.self_mmtObserver self) = d)
  /\ (let self :=
        fst (Minimal.MMTEphem_init now next_setting next_rising dateObs') in
      at_mmt (Minimal.self_mmtObserver self)
      /\ horizon (Minimal.self_mmtObserver self) = "-12"
      /\ date (Minimal.self_mmtObserver self) = DateTime now).
Proof.
  intros Hanchor. split.
  - unfold Original.ephem_init. rewrite Hanchor.
    eexists. eexists. split; [reflexivity |]. cbn. repeat split.
  - cbn. repeat split.
Qed.

End EphemDate.


Lemma saved_observers_witness :
  exists self log,
    Original.ephem_init 0 sample_next_setting sample_next_rising
      (DateStr "2016/02/09")
    = Some (self, log)
    /\ at_mmt (Original.self_mmtObserver self)
    /\ horizon (Original.self_mmtObserver self) = "-0:34"
    /\ date (Original.self_mmtObserver self) = DateStr "2016/02/09 19:00".
Proof.
  exact (proj1
    (saved_observers 0 sample_next_setting sample_next_rising
       (DateStr "2016/02/09") (DateStr "2016/02/09 19:00") "2016/02/09"
       eq_refl)).
Defined.

(** ** From a date to a curve *)

Lemma turns_within_a_day sunset sunrise :
  sunset < sunrise < sunset + day ->
  (1 <= turns sunset sunrise <= 288)%nat.
Proof.
  intros [Hlo Hhi]. pose proof timedelta_pos as Hp.
  destruct (turns_bounds sunset sunrise Hlo) as (Hpos & _).
  split; [lia |]. unfold turns.
  assert ((sunrise - sunset + timedelta - 1) / timedelta < 289); [| lia].
  apply Z.div_lt_upper_bound; [exact Hp |].
  unfold day, timedelta, timedelta_minutes in *. lia.
Qed.

Section NightCurve.

Variable now : datetime.
Variables next_setting next_rising : Observer -> Body -> datetime.
Variable instant : pydate -> datetime.
Variable angle : string -> Z.
Variable altitude : datetime -> Z.
Variable compute : FixedBody -> Observer -> Computed.

(** X13.  Under the contract of the searches, the curve of a target over the
    night of a date, [ObjEphem(ra, dec, dateObs, ephem(date))], starts at
    the sunset, ends at or after the sunrise and has between 2 and 289
    samples: the night is shorter than 24 hours. *)
Theorem night_curve_size (s d : string) (ra dec : pyangle)
  (dateObs : pydate) :
  split_first s = Some d ->
  first_crossing_contract next_setting next_rising instant angle altitude ->
  ordinary_night altitude (angle "-0:34") (angle "-12")
    (instant (DateStr (d ++ " 19:00")%string)) ->
  exists self log obj self',
    Original.ephem_init now next_setting next_rising (DateStr s)
    = Some (self, log)
    /\ Original.ObjEphem_init compute ra dec dateObs self = Some (obj, self')
    /\ (2 <= List.length (Original.obj_time obj) <= 289)%nat
    /\ List.length (Original.obj_airmass obj)
       = List.length (Original.obj_time obj)
    /\ hd_error (Original.obj_time obj) = Some (Original.self_sunset self)
    /\ Original.self_sunrise self <= last (Original.obj_time obj) 0.
Proof.
  intros Hsplit Hcontract Hnight.
  destruct (ephem_init_searches now next_setting next_rising (DateStr s)
              (DateStr (d ++ " 19:00")%string))
    as (self & Heq & _ & Hset & Hrise & _).
  { cbn. now rewrite Hsplit. }
  pose proof (sun_events now next_setting next_rising instant angle altitude
                _ Hcontract Hnight) as (Horder & _).
  cbv zeta in Horder. rewrite <- Hset, <- Hrise in Horder.
  exists self. eexists. eexists. eexists.
  split; [exact Heq |].
  split; [apply ObjEphem_init_value |].
  cbn [Original.obj_time Original.obj_airmass].
  rewrite length_map, timeGrid_length.
  pose proof (turns_within_a_day _ _ Horder) as Hturns.
  destruct (turns_bounds _ _ (proj1 Horder)) as (_ & _ & Hlast).
  repeat split; try lia.
  - now rewrite timeGrid_closed.
  - now rewrite timeGrid_last.
Qed.

End NightCurve.

Lemma night_curve_size_witness :
  exists self log obj self',
    Original.ephem_init 0 sample_next_setting sample_next_rising
      (DateStr "2016/02/09")
    = Some (self, log)
    /\ Original.ObjEphem_init compute_zero (AngleStr "8:00:00")
         (AngleStr "30:00:00") (DateStr "2016/02/09") self
       = Some (obj, self')
    /\ (2 <= List.length (Original.obj_time obj) <= 289)%nat
    /\ List.length (Original.obj_airmass obj)
       = List.length (Original.obj_time obj)
    /\ hd_error (Original.obj_time obj) = Some (Original.self_sunset self)
    /\ Original.self_sunrise self <= last (Original.obj_time obj) 0.
Proof.
  apply (night_curve_size 0 sample_next_setting sample_next_rising
           sample_instant sample_angle sample_altitude compute_zero
           "2016/02/09" "2016/02/09").
  - reflexivity.
  - exact sample_contract.
  - exact (sample_night _).
Defined.

(** ** The searches of [ephem] on the sample provider *)

Lemma ephem_moon_searches_standard_horizon_witness :
  let log :=
    [mkQuery Setting Sun (mmt_at 0 (DateStr "2016/02/09 19:00") "-0:34");
     mkQuery Rising Sun (mmt_at 0 (DateStr "2016/02/09 19:00") "-0:34");
     mkQuery Setting Sun (mmt_at 0 (DateStr "2016/02/09 19:00") "-12");
     mkQuery Rising Sun (mmt_at 0 (DateStr "2016/02/09 19:00") "-12");
     mkQuery Rising Moon (mmt_at 0 (DateStr "2016/02/09 19:00") "-0:34");
     mkQuery Setting Moon (mmt_at 0 (DateStr "2016/02/09 19:00") "-0:34")] in
  (forall q, In q log -> q_body q = Moon -> horizon (q_observer q) = "-0:34")
  /\ (exists q, In q log /\ q_body q = Moon /\ q_search q = Rising)
  /\ (exists q, In q log /\ q_body q = Moon /\ q_search q = Setting).
Proof.
  intros log.
  eapply (ephem_moon_searches_standard_horizon 0 sample_next_setting
            sample_next_rising (DateStr "2016/02/09")).
  reflexivity.
Defined.

